(** * ModelExperimentalStatistics: per-model resource accounting

    Shallow embedding of
    [Source/Scene/ModelExperimental/ModelExperimentalStatistics.js].

    Modelling conventions.
    - Byte sizes and counts are integers of [Z], added as integers. The
      code adds doubles, and the two agree while every operand and every
      sum is a non-negative integer up to [MAX_SAFE_INTEGER]; a theorem
      whose truth depends on the value of a sum states that range as a
      hypothesis ([safeSizes], [safeStore], [safeTotal]).
    - An [_id] is a safe-integer number, a string, or any other primitive
      value given by the property key it coerces to.
    - A plain object used as a set ([{}] with [o[k] = true] and
      [o.hasOwnProperty(k)]) is the [gmap string bool] of its own data
      properties. Assigning to the key ["__proto__"] reaches the accessor
      of [Object.prototype] and creates no own property; an own property
      ["hasOwnProperty"] shadows the inherited method, and calling it
      throws a [TypeError].
    - The source is embedded as written, with the [debug] pragma blocks
      (the [Check.typeOf] calls) included.
    - Overlay (batch) textures are shared mutable objects: the statistics
      keep references to them, and their [byteLength] is read through a
      store of objects at the time of each read. *)

From stdpp Require Import gmap strings list fin_maps pretty.

Local Open Scope Z_scope.

(** ** JavaScript values *)

(** [Number.MAX_SAFE_INTEGER]. *)
Definition MAX_SAFE_INTEGER : Z := 2 ^ 53 - 1.

Definition isSafeInteger (n : Z) : bool := Z.abs n <=? MAX_SAFE_INTEGER.

(** The values an [_id] field holds: a number that is a safe integer, a
    string (the engine uses GUID strings), or another primitive value that
    is not a symbol (a boolean, [undefined], [null], any other number),
    which is given by the property key it coerces to. An [_id] that is an
    object, whose coercion runs code of its own, or a symbol is not
    modelled. *)
Inductive Id : Type :=
  | IdNumber (n : Z) (safe : Is_true (isSafeInteger n))
  | IdString (s : string)
  | IdOther (key : string).

(** Coercion of a value used as a property key, [o[id]]: a string is
    itself, a safe integer is written in decimal. *)
Definition propertyKey (id : Id) : string :=
  match id with
  | IdNumber n _ => pretty n
  | IdString s => s
  | IdOther key => key
  end.

(** A value passed as an argument; [O] is what a value of type
    ["object"] other than [null] carries at that parameter. *)
Inductive JsValue (O : Type) : Type :=
  | Undefined
  | Null
  | Boolean (b : bool)
  | Number (n : Z)
  | String (s : string)
  | Object (o : O).

Arguments Undefined {O}.
Arguments Null {O}.
Arguments Boolean {O} b.
Arguments Number {O} n.
Arguments String {O} s.
Arguments Object {O} o.

(** The result of [typeof v]. *)
Definition typeof {O} (v : JsValue O) : string :=
  match v with
  | Undefined => "undefined"
  | Null => "object"
  | Boolean _ => "boolean"
  | Number _ => "number"
  | String _ => "string"
  | Object _ => "object"
  end.

(** The condition of [v ? a : b]. *)
Definition truthy {O} (v : JsValue O) : bool :=
  match v with
  | Undefined => false
  | Null => false
  | Boolean b => b
  | Number n => negb (n =? 0)
  | String s => negb (String.eqb s "")
  | Object _ => true
  end.

(** ** Resource records (owned by collaborators) *)

Module Buffer.
Record t : Type := { _id : Id; sizeInBytes : Z }.
End Buffer.

Module Texture.
Record t : Type := { _id : Id; sizeInBytes : Z }.
End Texture.

Module BatchTexture.
(** [byteLength] is an accessor whose value changes while the texture
    loads; [_id] is assigned once at construction. *)
Record t : Type := { _id : Id; byteLength : Z }.
End BatchTexture.

(** References to overlay textures, and the store they point into. Every
    reference denotes an object, as in JavaScript. *)
Definition ref : Type := nat.
Definition Store : Type := ref -> BatchTexture.t.

(** The external event "the overlay texture behind [r] now reports [n]
    bytes": the object is updated in place, every holder of [r] sees it. *)
Definition setByteLength (r : ref) (n : Z) (h : Store) : Store :=
  fun r' =>
    if decide (r' = r)
    then {| BatchTexture._id := BatchTexture._id (h r');
            BatchTexture.byteLength := n |}
    else h r'.

(** ** AssociativeArray *)

Module AssociativeArray.
(** Modelled from the spec: [Core/AssociativeArray.js] is not among the
    sources. The spec describes the registry as an ordered mapping from
    identity to a retained reference, with a membership test, an insert,
    removal of all entries, and iteration over the current contents.
    It is modelled as the list of (key, value) entries in insertion
    order, keyed like the id sets by the property key of the identity. *)
Abbreviation t V := (list (string * V)).

Definition empty {V} : t V := [].

Definition length {V} (a : t V) : nat := List.length a.

Definition values {V} (a : t V) : list V := a.*2.

Definition contains {V} (key : Id) (a : t V) : bool :=
  bool_decide (propertyKey key ∈ a.*1).

Fixpoint get {V} (key : Id) (a : t V) : option V :=
  match a with
  | [] => None
  | (k, v) :: a' => if decide (k = propertyKey key) then Some v else get key a'
  end.

Definition remove {V} (key : Id) (a : t V) : t V :=
  filter (fun e => e.1 ≠ propertyKey key) a.

Definition set {V} (key : Id) (value : V) (a : t V) : t V :=
  remove key a ++ [(propertyKey key, value)].

Definition removeAll {V} (a : t V) : t V := [].
End AssociativeArray.

(** ** The statistics record *)

Record ModelExperimentalStatistics : Type := {
  pointsLength : Z;
  trianglesLength : Z;
  geometryByteLength : Z;
  texturesByteLength : Z;
  propertyTablesByteLength : Z;
  _bufferIdSet : gmap string bool;
  _textureIdSet : gmap string bool;
  _batchTextureIdMap : AssociativeArray.t ref
}.

(** The constructor: all totals zero, all sets empty. *)
Definition new : ModelExperimentalStatistics :=
  {| pointsLength := 0;
     trianglesLength := 0;
     geometryByteLength := 0;
     texturesByteLength := 0;
     propertyTablesByteLength := 0;
     _bufferIdSet := ∅;
     _textureIdSet := ∅;
     _batchTextureIdMap := AssociativeArray.empty |}.

(** ** Methods as state transformers that may throw *)

Inductive Error : Type :=
  | InvalidArgument (name : string)
  | TypeError.

Inductive Completion (A : Type) : Type :=
  | Normal (a : A)
  | Throw (e : Error).

Arguments Normal {A} a.
Arguments Throw {A} e.

(** A method body: from the record before the call to how the call
    completes and the record after it. A throw keeps whatever was written
    before it. *)
Definition Method (A : Type) : Type :=
  ModelExperimentalStatistics -> Completion A * ModelExperimentalStatistics.

Definition ret {A} (a : A) : Method A := fun s => (Normal a, s).

Definition throw {A} (e : Error) : Method A := fun s => (Throw e, s).

Definition bind {A B} (m : Method A) (k : A -> Method B) : Method B :=
  fun s =>
    match m s with
    | (Normal a, s') => k a s'
    | (Throw e, s') => (Throw e, s')
    end.

Definition this : Method ModelExperimentalStatistics := fun s => (Normal s, s).

Definition write (f : ModelExperimentalStatistics -> ModelExperimentalStatistics)
  : Method unit :=
  fun s => (Normal tt, f s).

(** An expression that completes without touching the record. *)
Definition eval {A} (c : Completion A) : Method A := fun s => (c, s).

Notation "x <~ m ; k" := (bind m (fun x => k))
  (at level 20, m at level 100, k at level 200, only parsing).

Module Check.
(** Modelled from the spec: [Core/Check.js] is not among the sources. The
    spec has each registration raise [InvalidArgument] when a required
    reference is missing (is not an object) or a flag is not a boolean.
    The helpers are named after [typeof] and are modelled as comparing
    [typeof test] with the expected type name; [null], whose type name is
    ["object"], passes the object check. *)
Definition typeOf_object {O} (name : string) (test : JsValue O) : Method unit :=
  if String.eqb (typeof test) "object" then ret tt
  else throw (InvalidArgument name).

Definition typeOf_bool {O} (name : string) (test : JsValue O) : Method unit :=
  if String.eqb (typeof test) "boolean" then ret tt
  else throw (InvalidArgument name).
End Check.

(** The base of a property read [v.p]: [null] and [undefined] have no
    properties and the read throws. The methods read properties only of
    arguments that passed [Check.typeOf_object], which are objects or
    [null]; the other primitive values never get here. *)
Definition toObject {O} (v : JsValue O) : Method O :=
  match v with
  | Object o => ret o
  | _ => throw TypeError
  end.

(** Field assignments [this.f = v]. *)
Definition set_geometryByteLength (v : Z) (s : ModelExperimentalStatistics) :=
  {| pointsLength := pointsLength s;
     trianglesLength := trianglesLength s;
     geometryByteLength := v;
     texturesByteLength := texturesByteLength s;
     propertyTablesByteLength := propertyTablesByteLength s;
     _bufferIdSet := _bufferIdSet s;
     _textureIdSet := _textureIdSet s;
     _batchTextureIdMap := _batchTextureIdMap s |}.

Definition set_texturesByteLength (v : Z) (s : ModelExperimentalStatistics) :=
  {| pointsLength := pointsLength s;
     trianglesLength := trianglesLength s;
     geometryByteLength := geometryByteLength s;
     texturesByteLength := v;
     propertyTablesByteLength := propertyTablesByteLength s;
     _bufferIdSet := _bufferIdSet s;
     _textureIdSet := _textureIdSet s;
     _batchTextureIdMap := _batchTextureIdMap s |}.

Definition set_bufferIdSet (v : gmap string bool) (s : ModelExperimentalStatistics) :=
  {| pointsLength := pointsLength s;
     trianglesLength := trianglesLength s;
     geometryByteLength := geometryByteLength s;
     texturesByteLength := texturesByteLength s;
     propertyTablesByteLength := propertyTablesByteLength s;
     _bufferIdSet := v;
     _textureIdSet := _textureIdSet s;
     _batchTextureIdMap := _batchTextureIdMap s |}.

Definition set_textureIdSet (v : gmap string bool) (s : ModelExperimentalStatistics) :=
  {| pointsLength := pointsLength s;
     trianglesLength := trianglesLength s;
     geometryByteLength := geometryByteLength s;
     texturesByteLength := texturesByteLength s;
     propertyTablesByteLength := propertyTablesByteLength s;
     _bufferIdSet := _bufferIdSet s;
     _textureIdSet := v;
     _batchTextureIdMap := _batchTextureIdMap s |}.

Definition set_batchTextureIdMap (v : AssociativeArray.t ref)
    (s : ModelExperimentalStatistics) :=
  {| pointsLength := pointsLength s;
     trianglesLength := trianglesLength s;
     geometryByteLength := geometryByteLength s;
     texturesByteLength := texturesByteLength s;
     propertyTablesByteLength := propertyTablesByteLength s;
     _bufferIdSet := _bufferIdSet s;
     _textureIdSet := _textureIdSet s;
     _batchTextureIdMap := v |}.

(** ** Plain objects used as sets *)

(** Whether the object has an own property named [k]. *)
Definition hasOwn (o : gmap string bool) (k : string) : bool :=
  bool_decide (is_Some (o !! k)).

(** The call [o.hasOwnProperty(k)]. The callee is looked up on [o]: an own
    property ["hasOwnProperty"] (whose value, [true], is no function)
    shadows the method of [Object.prototype] and the call throws. *)
Definition hasOwnProperty (o : gmap string bool) (k : Id) : Completion bool :=
  if hasOwn o "hasOwnProperty" then Throw TypeError
  else Normal (hasOwn o (propertyKey k)).

(** The assignment [o[k] = true]. The key ["__proto__"] names the accessor
    inherited from [Object.prototype], whose setter ignores a value that
    is no object: no own property is created. *)
Definition setProperty (o : gmap string bool) (k : Id) : gmap string bool :=
  if decide (propertyKey k = "__proto__") then o
  else <[propertyKey k := true]> o.

(** ** The methods *)

(** The getter [batchTexturesByteLength]: the loop
    [for (i = 0; i < length; i++) memory += values[i].byteLength] runs over
    the whole of [values] ([length] is its length), reading each
    [byteLength] in the store as it is now. *)
Definition batchTexturesByteLength (h : Store) (s : ModelExperimentalStatistics) : Z :=
  let values := AssociativeArray.values (_batchTextureIdMap s) in
  fold_left (fun memory r => memory + BatchTexture.byteLength (h r)) values 0.

(** [clear()]. *)
Definition clear : Method unit :=
  write (fun s =>
    {| pointsLength := 0;
       trianglesLength := 0;
       geometryByteLength := 0;
       texturesByteLength := 0;
       propertyTablesByteLength := 0;
       _bufferIdSet := ∅;
       _textureIdSet := ∅;
       _batchTextureIdMap := AssociativeArray.removeAll (_batchTextureIdMap s) |}).

(** [addBuffer(buffer, hasCpuCopy)]. *)
Definition addBuffer (buffer : JsValue Buffer.t) (hasCpuCopy : JsValue unit)
  : Method unit :=
  _ <~ Check.typeOf_object "buffer" buffer;
  _ <~ Check.typeOf_bool "hasCpuCopy" hasCpuCopy;
  s <~ this;
  buffer <~ toObject buffer;
  seen <~ eval (hasOwnProperty (_bufferIdSet s) (Buffer._id buffer));
  _ <~ (if negb seen
   then
     let copies := if truthy hasCpuCopy then 2 else 1 in
     write (set_geometryByteLength
              (geometryByteLength s + Buffer.sizeInBytes buffer * copies))
   else ret tt);
  s <~ this;
  write (set_bufferIdSet (setProperty (_bufferIdSet s) (Buffer._id buffer))).

(** [addTexture(texture)]. *)
Definition addTexture (texture : JsValue Texture.t) : Method unit :=
  _ <~ Check.typeOf_object "texture" texture;
  s <~ this;
  texture <~ toObject texture;
  seen <~ eval (hasOwnProperty (_textureIdSet s) (Texture._id texture));
  _ <~ (if negb seen
   then write (set_texturesByteLength
                 (texturesByteLength s + Texture.sizeInBytes texture))
   else ret tt);
  s <~ this;
  write (set_textureIdSet (setProperty (_textureIdSet s) (Texture._id texture))).

(** [addBatchTexture(batchTexture)]: the argument is a reference, and
    [batchTexture._id] is read through the store. *)
Definition addBatchTexture (h : Store) (batchTexture : JsValue ref) : Method unit :=
  _ <~ Check.typeOf_object "batchTexture" batchTexture;
  s <~ this;
  batchTexture <~ toObject batchTexture;
  if negb (AssociativeArray.contains (BatchTexture._id (h batchTexture))
             (_batchTextureIdMap s))
  then write (set_batchTextureIdMap
                (AssociativeArray.set (BatchTexture._id (h batchTexture))
                   batchTexture (_batchTextureIdMap s)))
  else ret tt.

(** ** Call sequences of one generation *)

(** The state a method call leaves behind. *)
Definition after {A} (m : Method A) (s : ModelExperimentalStatistics)
  : ModelExperimentalStatistics := (m s).2.

(** A call whose exception the caller catches: [try { m } catch {}]. *)
Definition attempt {A} (m : Method A) : Method unit :=
  fun s => (Normal tt, after m s).

(** What a buffer adds to [geometryByteLength] when it is counted. *)
Definition bufferBytes (b : Buffer.t) (hasCpuCopy : bool) : Z :=
  Buffer.sizeInBytes b * (if hasCpuCopy then 2 else 1).

(** A well-typed registration of a buffer or a texture. *)
Inductive Registration : Type :=
  | RegBuffer (b : Buffer.t) (hasCpuCopy : bool)
  | RegTexture (t : Texture.t).

Definition register (r : Registration) : Method unit :=
  match r with
  | RegBuffer b hasCpuCopy => addBuffer (Object b) (Boolean hasCpuCopy)
  | RegTexture t => addTexture (Object t)
  end.

(** The registrations made one after another, each in its turn whether or
    not an earlier one threw. *)
Fixpoint registerAll (rs : list Registration) : Method unit :=
  match rs with
  | [] => ret tt
  | r :: rs' => _ <~ attempt (register r); registerAll rs'
  end.

(** The registrations of a sequence that are the first of their identity:
    [seenB] and [seenT] are the buffer and texture keys met so far. *)
Fixpoint firstRegistrationsFrom (seenB seenT : gset string)
    (rs : list Registration) : list Registration :=
  match rs with
  | [] => []
  | RegBuffer b f :: rs' =>
      let k := propertyKey (Buffer._id b) in
      if bool_decide (k ∈ seenB)
      then firstRegistrationsFrom seenB seenT rs'
      else RegBuffer b f :: firstRegistrationsFrom ({[k]} ∪ seenB) seenT rs'
  | RegTexture t :: rs' =>
      let k := propertyKey (Texture._id t) in
      if bool_decide (k ∈ seenT)
      then firstRegistrationsFrom seenB seenT rs'
      else RegTexture t :: firstRegistrationsFrom seenB ({[k]} ∪ seenT) rs'
  end.

Definition firstRegistrations : list Registration -> list Registration :=
  firstRegistrationsFrom ∅ ∅.

Definition geometryBytesOf (r : Registration) : Z :=
  match r with
  | RegBuffer b f => bufferBytes b f
  | RegTexture _ => 0
  end.

Definition textureBytesOf (r : Registration) : Z :=
  match r with
  | RegBuffer _ _ => 0
  | RegTexture t => Texture.sizeInBytes t
  end.

Definition sumZ (l : list Z) : Z := foldr Z.add 0 l.

(** The identity keys of the buffers and of the textures of a sequence. *)
Definition bufferKeys (rs : list Registration) : list string :=
  omap (fun r => match r with
                 | RegBuffer b _ => Some (propertyKey (Buffer._id b))
                 | RegTexture _ => None
                 end) rs.

Definition textureKeys (rs : list Registration) : list string :=
  omap (fun r => match r with
                 | RegBuffer _ _ => None
                 | RegTexture t => Some (propertyKey (Texture._id t))
                 end) rs.

(** What happens during a generation, seen from the record and the store
    of overlay textures: well-typed registrations, and overlay textures
    changing their reported size while they load. *)
Inductive Event : Type :=
  | EvAddBuffer (b : Buffer.t) (hasCpuCopy : bool)
  | EvAddTexture (t : Texture.t)
  | EvAddBatchTexture (r : ref)
  | EvSetByteLength (r : ref) (n : Z).

Definition step (e : Event) (w : Store * ModelExperimentalStatistics)
  : Store * ModelExperimentalStatistics :=
  match e with
  | EvAddBuffer b f => (w.1, after (addBuffer (Object b) (Boolean f)) w.2)
  | EvAddTexture t => (w.1, after (addTexture (Object t)) w.2)
  | EvAddBatchTexture r => (w.1, after (addBatchTexture w.1 (Object r)) w.2)
  | EvSetByteLength r n => (setByteLength r n w.1, w.2)
  end.

Definition run (es : list Event) (w : Store * ModelExperimentalStatistics)
  : Store * ModelExperimentalStatistics :=
  fold_left (fun w e => step e w) es w.

(** The overlay-texture references of a sequence that are the first of
    their identity, in order of registration; [seen] are the keys met so
    far. Identities are read in the store [h]. *)
Fixpoint retainedFrom (h : Store) (seen : gset string) (es : list Event) : list ref :=
  match es with
  | [] => []
  | EvAddBatchTexture r :: es' =>
      let k := propertyKey (BatchTexture._id (h r)) in
      if bool_decide (k ∈ seen)
      then retainedFrom h seen es'
      else r :: retainedFrom h ({[k]} ∪ seen) es'
  | _ :: es' => retainedFrom h seen es'
  end.

Definition retained (h : Store) : list Event -> list ref := retainedFrom h ∅.

(** The identity keys of the overlay textures held by the registry. *)
Definition registryKeys (s : ModelExperimentalStatistics) : list string :=
  (_batchTextureIdMap s).*1.

(** The overlay-texture references registered by a sequence of events. *)
Definition batchTextureRefs (es : list Event) : list ref :=
  omap (fun e => match e with EvAddBatchTexture r => Some r | _ => None end) es.

(** The identity key of the overlay texture behind a reference. *)
Definition batchTextureKey (h : Store) (r : ref) : string :=
  propertyKey (BatchTexture._id (h r)).

(** The buffer and texture registrations among the events, in order. *)
Definition eventRegistrations (es : list Event) : list Registration :=
  omap (fun e => match e with
                 | EvAddBuffer b f => Some (RegBuffer b f)
                 | EvAddTexture t => Some (RegTexture t)
                 | _ => None
                 end) es.

(** The byte size a registration carries. *)
Definition sizeOf (r : Registration) : Z :=
  match r with
  | RegBuffer b _ => Buffer.sizeInBytes b
  | RegTexture t => Texture.sizeInBytes t
  end.

(** The identity key a registration carries. *)
Definition keyOf (r : Registration) : string :=
  match r with
  | RegBuffer b _ => propertyKey (Buffer._id b)
  | RegTexture t => propertyKey (Texture._id t)
  end.

(** ** Where a plain object is a set, and integer sums are the code's *)

(** A key for which a plain object behaves as a set. *)
Definition ordinaryKey (k : string) : Prop :=
  k ≠ "__proto__" /\ k ≠ "hasOwnProperty".

Definition ordinaryRegistration (r : Registration) : Prop :=
  match r with
  | RegBuffer b _ => ordinaryKey (propertyKey (Buffer._id b))
  | RegTexture t => ordinaryKey (propertyKey (Texture._id t))
  end.

(** A set object on which [hasOwnProperty] is still the inherited method. *)
Definition unshadowed (o : gmap string bool) : Prop := o !! "hasOwnProperty" = None.

(** A key of a set object that was inserted by a registration. *)
Definition marked (o : gmap string bool) (k : string) : Prop := o !! k = Some true.

(** A set object on which a registration with key [k] changes nothing:
    the membership test throws, or it finds the key. *)
Definition blocked (o : gmap string bool) (k : string) : Prop :=
  hasOwn o "hasOwnProperty" = true \/ marked o k.

(** A total in the range where sums of integers are exact in doubles. *)
Definition safeTotal (x : Z) : Prop := 0 <= x <= MAX_SAFE_INTEGER.

(** Registrations whose sizes are not negative and whose plain sums, per
    total, are safe integers: every sum the methods form while running
    them from zero totals is exact. *)
Definition safeSizes (rs : list Registration) : Prop :=
  Forall (fun r => 0 <= sizeOf r) rs
  /\ sumZ (geometryBytesOf <$> rs) <= MAX_SAFE_INTEGER
  /\ sumZ (textureBytesOf <$> rs) <= MAX_SAFE_INTEGER.

(** A store in which the overlay textures behind [refs] report sizes that
    are not negative and whose sum is a safe integer. *)
Definition safeStore (h : Store) (refs : list ref) : Prop :=
  Forall (fun r => 0 <= BatchTexture.byteLength (h r)) refs
  /\ sumZ ((fun r => BatchTexture.byteLength (h r)) <$> refs) <= MAX_SAFE_INTEGER.

(** ** Sample resources (the scenarios of the specification) *)

Definition bufferA : Buffer.t := {| Buffer._id := IdString "A"; Buffer.sizeInBytes := 100 |}.
Definition bufferA' : Buffer.t := {| Buffer._id := IdString "A"; Buffer.sizeInBytes := 7 |}.
Definition bufferB : Buffer.t := {| Buffer._id := IdString "B"; Buffer.sizeInBytes := 50 |}.
Definition buffer1 : Buffer.t := {| Buffer._id := IdNumber 1 I; Buffer.sizeInBytes := 10 |}.
Definition buffer1s : Buffer.t := {| Buffer._id := IdString "1"; Buffer.sizeInBytes := 20 |}.
Definition textureT1 : Texture.t := {| Texture._id := IdString "T1"; Texture.sizeInBytes := 40 |}.
Definition textureT2 : Texture.t := {| Texture._id := IdString "T2"; Texture.sizeInBytes := 60 |}.
Definition texture1 : Texture.t := {| Texture._id := IdNumber 1 I; Texture.sizeInBytes := 10 |}.
Definition texture1s : Texture.t := {| Texture._id := IdString "1"; Texture.sizeInBytes := 20 |}.

(** Resources whose identities name members of [Object.prototype]. *)
Definition bufferProto : Buffer.t :=
  {| Buffer._id := IdString "__proto__"; Buffer.sizeInBytes := 10 |}.
Definition bufferHasOwnProperty : Buffer.t :=
  {| Buffer._id := IdString "hasOwnProperty"; Buffer.sizeInBytes := 5 |}.
Definition textureHasOwnProperty : Texture.t :=
  {| Texture._id := IdString "hasOwnProperty"; Texture.sizeInBytes := 5 |}.

(** A store with the overlay textures O1 (reference 0) and O2
    (reference 1), both still loading; every further reference [r] denotes
    a texture whose identity is the string of [r]. *)
Definition store0 : Store :=
  fun r =>
    match r with
    | 0%nat => {| BatchTexture._id := IdString "O1"; BatchTexture.byteLength := 0 |}
    | 1%nat => {| BatchTexture._id := IdString "O2"; BatchTexture.byteLength := 0 |}
    | _ => {| BatchTexture._id := IdString (pretty r); BatchTexture.byteLength := 0 |}
    end.

(** Closes a side condition on concrete resources by evaluation. *)
Ltac by_evaluation :=
  solve [ repeat constructor;
          first [ reflexivity | discriminate | vm_compute; discriminate ] ].

(** * Properties *)

(** ** Equations of the methods on well-typed arguments *)

Lemma addBuffer_eq (b : Buffer.t) (f : bool) (s : ModelExperimentalStatistics) :
  addBuffer (Object b) (Boolean f) s =
  match hasOwnProperty (_bufferIdSet s) (Buffer._id b) with
  | Throw e => (Throw e, s)
  | Normal seen =>
      (Normal tt,
       set_bufferIdSet (setProperty (_bufferIdSet s) (Buffer._id b))
         (if seen then s
          else set_geometryByteLength (geometryByteLength s + bufferBytes b f) s))
  end.
Proof.
  unfold addBuffer, bind, Check.typeOf_object, Check.typeOf_bool, toObject, eval,
    bufferBytes. simpl.
  destruct (hasOwnProperty _ _) as [[|]|e]; reflexivity.
Qed.

Lemma addTexture_eq (t : Texture.t) (s : ModelExperimentalStatistics) :
  addTexture (Object t) s =
  match hasOwnProperty (_textureIdSet s) (Texture._id t) with
  | Throw e => (Throw e, s)
  | Normal seen =>
      (Normal tt,
       set_textureIdSet (setProperty (_textureIdSet s) (Texture._id t))
         (if seen then s
          else set_texturesByteLength (texturesByteLength s + Texture.sizeInBytes t) s))
  end.
Proof.
  unfold addTexture, bind, Check.typeOf_object, toObject, eval. simpl.
  destruct (hasOwnProperty _ _) as [[|]|e]; reflexivity.
Qed.

Lemma addBatchTexture_eq (h : Store) (r : ref) (s : ModelExperimentalStatistics) :
  addBatchTexture h (Object r) s =
  (Normal tt,
   if AssociativeArray.contains (BatchTexture._id (h r)) (_batchTextureIdMap s)
   then s
   else set_batchTextureIdMap
          (AssociativeArray.set (BatchTexture._id (h r)) r (_batchTextureIdMap s)) s).
Proof.
  unfold addBatchTexture, bind, Check.typeOf_object, toObject. simpl.
  destruct (AssociativeArray.contains _ _); reflexivity.
Qed.

(** The record a registration leaves: as it was when the membership test
    throws, else with the key assigned and, for a key not found, the bytes
    added. *)
Lemma after_addBuffer (b : Buffer.t) (f : bool) (s : ModelExperimentalStatistics) :
  after (addBuffer (Object b) (Boolean f)) s =
  if hasOwn (_bufferIdSet s) "hasOwnProperty" then s
  else set_bufferIdSet (setProperty (_bufferIdSet s) (Buffer._id b))
         (if hasOwn (_bufferIdSet s) (propertyKey (Buffer._id b)) then s
          else set_geometryByteLength (geometryByteLength s + bufferBytes b f) s).
Proof.
  unfold after. rewrite addBuffer_eq. unfold hasOwnProperty.
  by destruct (hasOwn _ "hasOwnProperty").
Qed.

Lemma after_addTexture (t : Texture.t) (s : ModelExperimentalStatistics) :
  after (addTexture (Object t)) s =
  if hasOwn (_textureIdSet s) "hasOwnProperty" then s
  else set_textureIdSet (setProperty (_textureIdSet s) (Texture._id t))
         (if hasOwn (_textureIdSet s) (propertyKey (Texture._id t)) then s
          else set_texturesByteLength (texturesByteLength s + Texture.sizeInBytes t) s).
Proof.
  unfold after. rewrite addTexture_eq. unfold hasOwnProperty.
  by destruct (hasOwn _ "hasOwnProperty").
Qed.

Lemma after_addBatchTexture (h : Store) (r : ref) (s : ModelExperimentalStatistics) :
  after (addBatchTexture h (Object r)) s =
  if AssociativeArray.contains (BatchTexture._id (h r)) (_batchTextureIdMap s)
  then s
  else set_batchTextureIdMap
         (AssociativeArray.set (BatchTexture._id (h r)) r (_batchTextureIdMap s)) s.
Proof. unfold after. by rewrite addBatchTexture_eq. Qed.

(** Records with equal fields are equal. *)
Lemma statistics_eq (s s' : ModelExperimentalStatistics) :
  pointsLength s = pointsLength s' ->
  trianglesLength s = trianglesLength s' ->
  geometryByteLength s = geometryByteLength s' ->
  texturesByteLength s = texturesByteLength s' ->
  propertyTablesByteLength s = propertyTablesByteLength s' ->
  _bufferIdSet s = _bufferIdSet s' ->
  _textureIdSet s = _textureIdSet s' ->
  _batchTextureIdMap s = _batchTextureIdMap s' ->
  s = s'.
Proof. destruct s, s'; simpl; intros; subst; reflexivity. Qed.

Lemma clear_eq (s : ModelExperimentalStatistics) : clear s = (Normal tt, new).
Proof. reflexivity. Qed.

Lemma after_clear (s : ModelExperimentalStatistics) : after clear s = new.
Proof. reflexivity. Qed.

(** ** Sequences *)

Lemma run_app (es1 es2 : list Event) (w : Store * ModelExperimentalStatistics) :
  run (es1 ++ es2) w = run es2 (run es1 w).
Proof. apply fold_left_app. Qed.

Lemma run_cons (e : Event) (es : list Event) (w : Store * ModelExperimentalStatistics) :
  run (e :: es) w = run es (step e w).
Proof. reflexivity. Qed.

Lemma registerAll_cons (r : Registration) (rs : list Registration)
    (s : ModelExperimentalStatistics) :
  registerAll (r :: rs) s = registerAll rs (after (register r) s).
Proof. reflexivity. Qed.

Lemma registerAll_normal (rs : list Registration) (s : ModelExperimentalStatistics) :
  registerAll rs s = (Normal tt, after (registerAll rs) s).
Proof.
  revert s. induction rs as [|r rs IH]; intros s; [reflexivity|].
  unfold after. rewrite registerAll_cons. apply IH.
Qed.

Lemma registerAll_app (rs1 rs2 : list Registration) (s : ModelExperimentalStatistics) :
  after (registerAll (rs1 ++ rs2)) s = after (registerAll rs2) (after (registerAll rs1) s).
Proof.
  revert s. induction rs1 as [|r rs1 IH]; intros s; [reflexivity|].
  rewrite <- app_comm_cons. unfold after at 1 3. rewrite !registerAll_cons.
  apply IH.
Qed.

Lemma sumZ_cons (x : Z) (l : list Z) : sumZ (x :: l) = x + sumZ l.
Proof. reflexivity. Qed.

Lemma sumZ_app (l1 l2 : list Z) : sumZ (l1 ++ l2) = sumZ l1 + sumZ l2.
Proof.
  induction l1 as [|x l1 IH]; [reflexivity|].
  rewrite <- app_comm_cons, !sumZ_cons, IH. lia.
Qed.

Lemma sumZ_Permutation (l1 l2 : list Z) : l1 ≡ₚ l2 -> sumZ l1 = sumZ l2.
Proof. unfold sumZ. induction 1; simpl; lia. Qed.

(** ** The registry of overlay textures *)

Lemma length_values {V} (a : AssociativeArray.t V) :
  AssociativeArray.length a = List.length (AssociativeArray.values a).
Proof. unfold AssociativeArray.length, AssociativeArray.values. by rewrite length_fmap. Qed.

Lemma contains_false {V} (key : Id) (a : AssociativeArray.t V) :
  AssociativeArray.contains key a = false <-> propertyKey key ∉ a.*1.
Proof. unfold AssociativeArray.contains. apply bool_decide_eq_false. Qed.

Lemma contains_true {V} (key : Id) (a : AssociativeArray.t V) :
  AssociativeArray.contains key a = true <-> propertyKey key ∈ a.*1.
Proof. unfold AssociativeArray.contains. apply bool_decide_eq_true. Qed.

Lemma remove_absent {V} (key : Id) (a : AssociativeArray.t V) :
  propertyKey key ∉ a.*1 -> AssociativeArray.remove key a = a.
Proof.
  unfold AssociativeArray.remove. induction a as [|[k v] a IH]; intros Hk; [reflexivity|].
  rewrite fmap_cons, not_elem_of_cons in Hk. destruct Hk as [Hne Hk].
  rewrite filter_cons_True by (simpl in *; congruence).
  f_equal. apply IH, Hk.
Qed.

Lemma set_absent {V} (key : Id) (value : V) (a : AssociativeArray.t V) :
  AssociativeArray.contains key a = false ->
  AssociativeArray.set key value a = a ++ [(propertyKey key, value)].
Proof.
  intros Hc. unfold AssociativeArray.set.
  rewrite remove_absent; [reflexivity|]. by apply contains_false.
Qed.

Lemma get_app_Some {V} (key : Id) (a a' : AssociativeArray.t V) (v : V) :
  AssociativeArray.get key a = Some v -> AssociativeArray.get key (a ++ a') = Some v.
Proof.
  induction a as [|[k x] a IH]; simpl; [discriminate|].
  case_decide; [done|]. apply IH.
Qed.

Lemma get_app_absent {V} (key : Id) (a a' : AssociativeArray.t V) :
  propertyKey key ∉ a.*1 ->
  AssociativeArray.get key (a ++ a') = AssociativeArray.get key a'.
Proof.
  induction a as [|[k x] a IH]; simpl; [reflexivity|].
  rewrite not_elem_of_cons. intros [Hne Hk].
  case_decide; [congruence|]. apply IH, Hk.
Qed.

Lemma fold_left_sum {A} (f : A -> Z) (l : list A) (acc : Z) :
  fold_left (fun memory x => memory + f x) l acc = acc + sumZ (f <$> l).
Proof.
  revert acc. induction l as [|x l IH]; intros acc.
  - unfold sumZ. simpl. lia.
  - rewrite fmap_cons, sumZ_cons. simpl fold_left. rewrite IH. lia.
Qed.

(** The getter is the sum of the sizes that the retained references have
    in the store it is read in. *)
Lemma batchTexturesByteLength_sum (h : Store) (s : ModelExperimentalStatistics) :
  batchTexturesByteLength h s =
  sumZ ((fun r => BatchTexture.byteLength (h r)) <$>
          AssociativeArray.values (_batchTextureIdMap s)).
Proof. unfold batchTexturesByteLength. rewrite fold_left_sum. reflexivity. Qed.

(** Loading changes sizes, never identities. *)
Lemma setByteLength_id (r : ref) (n : Z) (h : Store) (r' : ref) :
  BatchTexture._id (setByteLength r n h r') = BatchTexture._id (h r').
Proof. unfold setByteLength. by case_decide. Qed.

Lemma setByteLength_byteLength (r : ref) (n : Z) (h : Store) (r' : ref) :
  BatchTexture.byteLength (setByteLength r n h r') =
  if decide (r' = r) then n else BatchTexture.byteLength (h r').
Proof. unfold setByteLength. by case_decide. Qed.

Lemma step_store_id (e : Event) (w : Store * ModelExperimentalStatistics) (r : ref) :
  BatchTexture._id ((step e w).1 r) = BatchTexture._id (w.1 r).
Proof. destruct e; simpl; try reflexivity. apply setByteLength_id. Qed.

(** A buffer or texture registration leaves the registry alone. *)
Lemma after_addBuffer_registry (b : Buffer.t) (f : bool) (s : ModelExperimentalStatistics) :
  _batchTextureIdMap (after (addBuffer (Object b) (Boolean f)) s) = _batchTextureIdMap s.
Proof. rewrite after_addBuffer. by repeat case_match. Qed.

Lemma after_addTexture_registry (t : Texture.t) (s : ModelExperimentalStatistics) :
  _batchTextureIdMap (after (addTexture (Object t)) s) = _batchTextureIdMap s.
Proof. rewrite after_addTexture. by repeat case_match. Qed.

(** The registry after the events of a generation: what it held, then the
    references that are the first of their identity. *)
Lemma run_registry (es : list Event) :
  forall (h0 : Store) (w : Store * ModelExperimentalStatistics) (seen : gset string),
    (forall r, BatchTexture._id (w.1 r) = BatchTexture._id (h0 r)) ->
    (forall k, k ∈ seen <-> k ∈ registryKeys w.2) ->
    _batchTextureIdMap (run es w).2 =
    _batchTextureIdMap w.2
      ++ ((fun r => (batchTextureKey h0 r, r)) <$> retainedFrom h0 seen es).
Proof.
  induction es as [|e es IH]; intros h0 w seen Hid Hseen.
  { simpl. by rewrite app_nil_r. }
  rewrite run_cons.
  assert (forall r, BatchTexture._id ((step e w).1 r) = BatchTexture._id (h0 r)) as Hid'.
  { intros r. by rewrite step_store_id. }
  destruct e as [b f|t|r|r n]; simpl retainedFrom.
  - rewrite (IH h0 _ seen Hid'); simpl.
    + by rewrite after_addBuffer_registry.
    + intros k. rewrite Hseen. unfold registryKeys. by rewrite after_addBuffer_registry.
  - rewrite (IH h0 _ seen Hid'); simpl.
    + by rewrite after_addTexture_registry.
    + intros k. rewrite Hseen. unfold registryKeys. by rewrite after_addTexture_registry.
  - assert (AssociativeArray.contains (BatchTexture._id (w.1 r)) (_batchTextureIdMap w.2)
            = bool_decide (propertyKey (BatchTexture._id (h0 r)) ∈ seen)) as Hc.
    { unfold AssociativeArray.contains. rewrite Hid. apply bool_decide_ext.
      symmetry. apply Hseen. }
    case_bool_decide as Hk.
    + rewrite (IH h0 _ seen Hid'); simpl; unfold after; rewrite addBatchTexture_eq, Hc; simpl.
      * reflexivity.
      * exact Hseen.
    + rewrite (IH h0 _ ({[propertyKey (BatchTexture._id (h0 r))]} ∪ seen) Hid');
        simpl; unfold after; rewrite addBatchTexture_eq, Hc; simpl.
      * rewrite set_absent by exact Hc. rewrite Hid.
        rewrite <- app_assoc. reflexivity.
      * intros k. rewrite set_absent by exact Hc. unfold registryKeys. simpl.
        rewrite fmap_app, elem_of_app, elem_of_union, elem_of_singleton, Hseen, Hid.
        simpl. rewrite list_elem_of_singleton. unfold registryKeys. tauto.
  - rewrite (IH h0 _ seen Hid'); simpl; [reflexivity | exact Hseen].
Qed.

Lemma retainedFrom_keys (h : Store) (es : list Event) :
  forall (seen : gset string) (k : string),
    k ∈ batchTextureKey h <$> retainedFrom h seen es <->
    k ∈ batchTextureKey h <$> batchTextureRefs es /\ k ∉ seen.
Proof.
  induction es as [|e es IH]; intros seen k.
  { simpl. rewrite elem_of_nil. tauto. }
  destruct e as [b f|t|r|r n]; try (simpl; apply IH).
  simpl retainedFrom. change (batchTextureRefs (EvAddBatchTexture r :: es))
    with (r :: batchTextureRefs es).
  rewrite fmap_cons, elem_of_cons. fold (batchTextureKey h r).
  case_bool_decide as Hk.
  - rewrite IH. split; [tauto|]. intros [[->|?] ?]; tauto.
  - rewrite fmap_cons, elem_of_cons, IH, elem_of_union, elem_of_singleton.
    destruct (decide (k = batchTextureKey h r)) as [->|Hne]; tauto.
Qed.

Lemma NoDup_retainedFrom_keys (h : Store) (es : list Event) :
  forall seen : gset string, NoDup (batchTextureKey h <$> retainedFrom h seen es).
Proof.
  induction es as [|e es IH]; intros seen; [constructor|].
  destruct e as [b f|t|r|r n]; try (simpl; apply IH).
  simpl retainedFrom. fold (batchTextureKey h r).
  case_bool_decide as Hk; [apply IH|].
  rewrite fmap_cons. constructor; [|apply IH].
  rewrite retainedFrom_keys, elem_of_union, elem_of_singleton. tauto.
Qed.

Lemma sumZ_fmap_update (f g : ref -> Z) (r : ref) (n : Z) (l : list ref) :
  (forall r', g r' = if decide (r' = r) then n else f r') ->
  NoDup l ->
  sumZ (g <$> l) = sumZ (f <$> l) + (if bool_decide (r ∈ l) then n - f r else 0).
Proof.
  intros Hg. induction l as [|x l IH]; intros Hnd.
  { unfold sumZ. simpl. lia. }
  apply NoDup_cons in Hnd as [Hx Hnd].
  rewrite !fmap_cons, !sumZ_cons, (IH Hnd), Hg.
  destruct (decide (x = r)) as [->|Hne].
  - rewrite (bool_decide_eq_false_2 (r ∈ l)) by exact Hx.
    rewrite (bool_decide_eq_true_2 (r ∈ r :: l)) by apply list_elem_of_here.
    lia.
  - rewrite (bool_decide_ext (r ∈ x :: l) (r ∈ l)); [lia|].
    rewrite elem_of_cons. split; [intros [?|?]; [congruence|done] | tauto].
Qed.

Lemma run_registry_new (h0 : Store) (es : list Event) :
  _batchTextureIdMap (run es (h0, new)).2 =
  (fun r => (batchTextureKey h0 r, r)) <$> retained h0 es.
Proof.
  rewrite (run_registry es h0 (h0, new) ∅); [reflexivity | reflexivity |].
  intros k. unfold registryKeys. simpl. rewrite elem_of_nil.
  split; [|done]. apply not_elem_of_empty.
Qed.

Lemma run_values_new (h0 : Store) (es : list Event) :
  AssociativeArray.values (_batchTextureIdMap (run es (h0, new)).2) = retained h0 es.
Proof.
  unfold AssociativeArray.values. rewrite run_registry_new, <- list_fmap_compose.
  apply list_fmap_id.
Qed.

Lemma run_registryKeys_new (h0 : Store) (es : list Event) :
  registryKeys (run es (h0, new)).2 = batchTextureKey h0 <$> retained h0 es.
Proof.
  unfold registryKeys. rewrite run_registry_new, <- list_fmap_compose. reflexivity.
Qed.

Lemma retainedFrom_registered (h : Store) (es : list Event) :
  forall (seen : gset string) (r : ref),
    r ∈ retainedFrom h seen es -> r ∈ batchTextureRefs es.
Proof.
  induction es as [|e es IH]; intros seen r; simpl; [done|].
  destruct e as [b f|t|r0|r0 n]; try apply IH.
  change (batchTextureRefs (EvAddBatchTexture r0 :: es)) with (r0 :: batchTextureRefs es).
  rewrite elem_of_cons. case_bool_decide.
  - intros Hr. right. by eapply IH.
  - rewrite elem_of_cons. intros [->|Hr]; [by left|]. right. by eapply IH.
Qed.

Lemma retainedFrom_length (h : Store) (es : list Event) :
  forall seen : gset string,
    (List.length (retainedFrom h seen es) <= List.length (batchTextureRefs es))%nat.
Proof.
  induction es as [|e es IH]; intros seen; simpl; [lia|].
  destruct e as [b f|t|r0|r0 n]; try apply IH.
  change (batchTextureRefs (EvAddBatchTexture r0 :: es)) with (r0 :: batchTextureRefs es).
  case_bool_decide; simpl.
  - specialize (IH seen). lia.
  - specialize (IH ({[propertyKey (BatchTexture._id (h r0))]} ∪ seen)). lia.
Qed.

(** ** Single calls *)

(** C7: [addBatchTexture] completes without reading a size and without
    touching a total or an id set. An identity that the registry does not
    hold is appended with its reference; an identity that it holds makes
    the call a no-op; in both cases every identity keeps the reference it
    was first registered with. *)
Theorem addBatchTexture_retains_first
    (h : Store) (s : ModelExperimentalStatistics) (r : ref) :
  let id := BatchTexture._id (h r) in
  let s' := after (addBatchTexture h (Object r)) s in
  addBatchTexture h (Object r) s = (Normal tt, s')
  /\ (forall h' : Store,
        BatchTexture._id (h' r) = id ->
        addBatchTexture h' (Object r) s = addBatchTexture h (Object r) s)
  /\ (pointsLength s' = pointsLength s
      /\ trianglesLength s' = trianglesLength s
      /\ geometryByteLength s' = geometryByteLength s
      /\ texturesByteLength s' = texturesByteLength s
      /\ propertyTablesByteLength s' = propertyTablesByteLength s
      /\ _bufferIdSet s' = _bufferIdSet s
      /\ _textureIdSet s' = _textureIdSet s)
  /\ (AssociativeArray.contains id (_batchTextureIdMap s) = false ->
      _batchTextureIdMap s' = _batchTextureIdMap s ++ [(propertyKey id, r)]
      /\ AssociativeArray.get id (_batchTextureIdMap s') = Some r)
  /\ (AssociativeArray.contains id (_batchTextureIdMap s) = true -> s' = s)
  /\ (forall (key : Id) (r0 : ref),
        AssociativeArray.get key (_batchTextureIdMap s) = Some r0 ->
        AssociativeArray.get key (_batchTextureIdMap s') = Some r0).
Proof.
  intros id s'. subst id s'. unfold after. rewrite addBatchTexture_eq. cbn [snd].
  split; [reflexivity|]. split.
  { intros h' Hid. by rewrite addBatchTexture_eq, Hid. }
  destruct (AssociativeArray.contains _ _) eqn:Hc.
  - repeat split; try done.
  - rewrite set_absent by exact Hc.
    repeat split; try done.
    + simpl. rewrite get_app_absent by (by apply contains_false).
      simpl. by rewrite decide_True.
    + simpl. intros key r0. apply get_app_Some.
Qed.

(** C3: [clear()] leaves the record as the constructor makes it: the five
    totals are zero, the overlay total reads zero in every store, both id
    sets and the registry are empty, and any buffer, texture or overlay
    texture registered next is counted as on a new record. *)
Theorem clear_resets (s : ModelExperimentalStatistics) :
  let s0 := after clear s in
  clear s = (Normal tt, s0)
  /\ (pointsLength s0 = 0
      /\ trianglesLength s0 = 0
      /\ geometryByteLength s0 = 0
      /\ texturesByteLength s0 = 0
      /\ propertyTablesByteLength s0 = 0)
  /\ (forall h : Store, batchTexturesByteLength h s0 = 0)
  /\ (_bufferIdSet s0 = ∅ /\ _textureIdSet s0 = ∅ /\ _batchTextureIdMap s0 = [])
  /\ s0 = new
  /\ (forall (b : Buffer.t) (f : bool),
        geometryByteLength (after (addBuffer (Object b) (Boolean f)) s0) = bufferBytes b f)
  /\ (forall t : Texture.t,
        texturesByteLength (after (addTexture (Object t)) s0) = Texture.sizeInBytes t)
  /\ (forall (h : Store) (r : ref),
        let s1 := after (addBatchTexture h (Object r)) s0 in
        AssociativeArray.values (_batchTextureIdMap s1) = [r]
        /\ batchTexturesByteLength h s1 = BatchTexture.byteLength (h r)).
Proof.
  intros s0. subst s0. rewrite after_clear.
  split; [reflexivity|]. split; [by repeat split|].
  split; [reflexivity|]. split; [by repeat split|].
  split; [reflexivity|]. split; [|split].
  - intros b f. rewrite after_addBuffer. reflexivity.
  - intros t. rewrite after_addTexture. reflexivity.
  - intros h r s1. subst s1. unfold after. rewrite addBatchTexture_eq.
    split; reflexivity.
Qed.

(** C9: frame conditions. Whatever its argument, [addTexture] changes at
    most [texturesByteLength] and the texture id set, [addBuffer] at most
    [geometryByteLength] and the buffer id set, and [addBatchTexture] at
    most the registry of overlay textures. *)
Theorem registration_frames (h : Store) (s : ModelExperimentalStatistics) :
  (forall texture : JsValue Texture.t,
      let s' := after (addTexture texture) s in
      pointsLength s' = pointsLength s
      /\ trianglesLength s' = trianglesLength s
      /\ geometryByteLength s' = geometryByteLength s
      /\ propertyTablesByteLength s' = propertyTablesByteLength s
      /\ _bufferIdSet s' = _bufferIdSet s
      /\ _batchTextureIdMap s' = _batchTextureIdMap s)
  /\ (forall (buffer : JsValue Buffer.t) (hasCpuCopy : JsValue unit),
        let s' := after (addBuffer buffer hasCpuCopy) s in
        pointsLength s' = pointsLength s
        /\ trianglesLength s' = trianglesLength s
        /\ texturesByteLength s' = texturesByteLength s
        /\ propertyTablesByteLength s' = propertyTablesByteLength s
        /\ _textureIdSet s' = _textureIdSet s
        /\ _batchTextureIdMap s' = _batchTextureIdMap s)
  /\ (forall batchTexture : JsValue ref,
        let s' := after (addBatchTexture h batchTexture) s in
        pointsLength s' = pointsLength s
        /\ trianglesLength s' = trianglesLength s
        /\ geometryByteLength s' = geometryByteLength s
        /\ texturesByteLength s' = texturesByteLength s
        /\ propertyTablesByteLength s' = propertyTablesByteLength s
        /\ _bufferIdSet s' = _bufferIdSet s
        /\ _textureIdSet s' = _textureIdSet s).
Proof.
  split; [|split].
  - intros texture s'. subst s'.
    destruct texture as [| | | | |t]; try by repeat split.
    rewrite after_addTexture. repeat case_match; by repeat split.
  - intros buffer hasCpuCopy s'. subst s'.
    destruct buffer as [| | | | |b]; try by repeat split.
    + destruct hasCpuCopy as [| |f| | |]; by repeat split.
    + destruct hasCpuCopy as [| |f| | |]; try by repeat split.
      rewrite after_addBuffer. repeat case_match; by repeat split.
  - intros batchTexture s'. subst s'.
    destruct batchTexture as [| | | | |r]; try by repeat split.
    rewrite after_addBatchTexture. repeat case_match; by repeat split.
Qed.

(** ** Commuting registrations *)

(** X5: registrations of different kinds commute. A buffer and a texture,
    an overlay texture and a buffer, an overlay texture and a texture may
    be registered in either order: the record is the same afterwards. *)
Theorem registrations_of_different_kinds_commute
    (h : Store) (s : ModelExperimentalStatistics)
    (b : Buffer.t) (f : bool) (t : Texture.t) (r : ref) :
  after (addTexture (Object t)) (after (addBuffer (Object b) (Boolean f)) s) =
    after (addBuffer (Object b) (Boolean f)) (after (addTexture (Object t)) s)
  /\ after (addBatchTexture h (Object r)) (after (addBuffer (Object b) (Boolean f)) s) =
     after (addBuffer (Object b) (Boolean f)) (after (addBatchTexture h (Object r)) s)
  /\ after (addBatchTexture h (Object r)) (after (addTexture (Object t)) s) =
     after (addTexture (Object t)) (after (addBatchTexture h (Object r)) s).
Proof.
  rewrite (after_addBuffer b f s), (after_addTexture t s), (after_addBatchTexture h r s).
  destruct (hasOwn (_bufferIdSet s) "hasOwnProperty") eqn:HBs,
    (hasOwn (_bufferIdSet s) (propertyKey (Buffer._id b))) eqn:HB,
    (hasOwn (_textureIdSet s) "hasOwnProperty") eqn:HTs,
    (hasOwn (_textureIdSet s) (propertyKey (Texture._id t))) eqn:HT,
    (AssociativeArray.contains (BatchTexture._id (h r)) (_batchTextureIdMap s)) eqn:HC;
    rewrite ?after_addBuffer, ?after_addTexture, ?after_addBatchTexture; simpl;
    rewrite ?HBs, ?HB, ?HTs, ?HT, ?HC; by repeat split.
Qed.

(** ** What the registry holds *)

(** X8: on a record that started new, the registry holds one entry per
    overlay identity registered in the generation, each pairing a
    registered reference with the key of its own identity, and [contains]
    answers [true] exactly for the registered identities; its length never
    exceeds the number of [addBatchTexture] calls. *)
Theorem registry_holds_registered_identities
    (h0 : Store) (es : list Event) (id : Id) :
  let m := _batchTextureIdMap (run es (h0, new)).2 in
  NoDup m.*1
  /\ (forall k r, (k, r) ∈ m -> k = batchTextureKey h0 r /\ r ∈ batchTextureRefs es)
  /\ AssociativeArray.contains id m =
     bool_decide (propertyKey id ∈ batchTextureKey h0 <$> batchTextureRefs es)
  /\ (AssociativeArray.length m <= List.length (batchTextureRefs es))%nat.
Proof.
  intros m. subst m.
  pose proof (run_registryKeys_new h0 es) as Hkeys. unfold registryKeys in Hkeys.
  split; [|split; [|split]].
  - rewrite Hkeys. apply NoDup_retainedFrom_keys.
  - intros k r. rewrite run_registry_new, list_elem_of_fmap.
    intros (r' & [= -> ->] & Hr'). split; [reflexivity|].
    by eapply retainedFrom_registered.
  - unfold AssociativeArray.contains. rewrite Hkeys. apply bool_decide_ext.
    unfold retained. rewrite retainedFrom_keys. split; [tauto|].
    intros Hk. split; [exact Hk | apply not_elem_of_empty].
  - unfold AssociativeArray.length. rewrite run_registry_new, length_fmap.
    apply retainedFrom_length.
Qed.

(** ** Registrations interleaved with overlay events *)

Lemma run_registerAll_agree (es : list Event) :
  forall (w : Store * ModelExperimentalStatistics) (s : ModelExperimentalStatistics),
    geometryByteLength w.2 = geometryByteLength s ->
    texturesByteLength w.2 = texturesByteLength s ->
    _bufferIdSet w.2 = _bufferIdSet s ->
    _textureIdSet w.2 = _textureIdSet s ->
    let s' := (run es w).2 in
    let s'' := after (registerAll (eventRegistrations es)) s in
    geometryByteLength s' = geometryByteLength s''
    /\ texturesByteLength s' = texturesByteLength s''
    /\ _bufferIdSet s' = _bufferIdSet s''
    /\ _textureIdSet s' = _textureIdSet s''.
Proof.
  induction es as [|e es IH]; intros w s HG HT HB HS; [by repeat split|].
  rewrite run_cons.
  destruct e as [b f|t|r|r n].
  - change (eventRegistrations (EvAddBuffer b f :: es))
      with (RegBuffer b f :: eventRegistrations es).
    cbv zeta. unfold after at 1 2 3 4. rewrite registerAll_cons.
    apply IH; simpl; rewrite !after_addBuffer, HB, HG;
      repeat case_match; simpl; congruence.
  - change (eventRegistrations (EvAddTexture t :: es))
      with (RegTexture t :: eventRegistrations es).
    cbv zeta. unfold after at 1 2 3 4. rewrite registerAll_cons.
    apply IH; simpl; rewrite !after_addTexture, HS, HT;
      repeat case_match; simpl; congruence.
  - change (eventRegistrations (EvAddBatchTexture r :: es)) with (eventRegistrations es).
    apply IH; simpl; rewrite after_addBatchTexture;
      repeat case_match; simpl; congruence.
  - change (eventRegistrations (EvSetByteLength r n :: es)) with (eventRegistrations es).
    by apply IH.
Qed.

Lemma run_scalars (es : list Event) :
  forall w : Store * ModelExperimentalStatistics,
    pointsLength (run es w).2 = pointsLength w.2
    /\ trianglesLength (run es w).2 = trianglesLength w.2
    /\ propertyTablesByteLength (run es w).2 = propertyTablesByteLength w.2.
Proof.
  induction es as [|e es IH]; intros w; [by repeat split|].
  rewrite run_cons. destruct (IH (step e w)) as (-> & -> & ->).
  destruct e as [b f|t|r|r n]; simpl.
  - rewrite after_addBuffer. repeat case_match; by repeat split.
  - rewrite after_addTexture. repeat case_match; by repeat split.
  - rewrite after_addBatchTexture. repeat case_match; by repeat split.
  - by repeat split.
Qed.

(** X2: overlay-texture registrations and size changes interleaved with
    buffer and texture registrations do not bear on the two accumulated
    totals: the events of a generation leave the same [geometryByteLength],
    [texturesByteLength] and id sets as their buffer and texture
    registrations alone, and they leave the three counters owned by the
    pipeline as they found them. *)
Theorem totals_ignore_overlay_events
    (w : Store * ModelExperimentalStatistics) (es : list Event) :
  let s' := (run es w).2 in
  let s'' := after (registerAll (eventRegistrations es)) w.2 in
  (geometryByteLength s' = geometryByteLength s''
   /\ texturesByteLength s' = texturesByteLength s''
   /\ _bufferIdSet s' = _bufferIdSet s''
   /\ _textureIdSet s' = _textureIdSet s'')
  /\ (pointsLength s' = pointsLength w.2
      /\ trianglesLength s' = trianglesLength w.2
      /\ propertyTablesByteLength s' = propertyTablesByteLength w.2).
Proof.
  intros s' s''. split.
  - by apply run_registerAll_agree.
  - apply run_scalars.
Qed.


(** ** Plain objects as sets *)

Lemma hasOwn_true (o : gmap string bool) (k : string) :
  hasOwn o k = true <-> is_Some (o !! k).
Proof. unfold hasOwn. apply bool_decide_eq_true. Qed.

Lemma hasOwn_false (o : gmap string bool) (k : string) :
  hasOwn o k = false <-> o !! k = None.
Proof.
  unfold hasOwn. rewrite bool_decide_eq_false, <- eq_None_not_Some. reflexivity.
Qed.

Lemma hasOwn_dom (o : gmap string bool) (k : string) :
  hasOwn o k = bool_decide (k ∈ dom o).
Proof. unfold hasOwn. apply bool_decide_ext. symmetry. apply elem_of_dom. Qed.

Lemma unshadowed_hasOwn (o : gmap string bool) :
  unshadowed o <-> hasOwn o "hasOwnProperty" = false.
Proof. symmetry. apply hasOwn_false. Qed.

Lemma marked_hasOwn (o : gmap string bool) (k : string) :
  marked o k -> hasOwn o k = true.
Proof. intros Hm. apply hasOwn_true. by exists true. Qed.

Lemma setProperty_ordinary (o : gmap string bool) (k : Id) :
  propertyKey k ≠ "__proto__" -> setProperty o k = <[propertyKey k := true]> o.
Proof. intros Hk. unfold setProperty. by rewrite decide_False. Qed.

Lemma setProperty_proto (o : gmap string bool) (k : Id) :
  propertyKey k = "__proto__" -> setProperty o k = o.
Proof. intros Hk. unfold setProperty. by rewrite decide_True. Qed.

(** Assignments never remove a key, and never unmark one. *)
Lemma setProperty_lookup (o : gmap string bool) (k : Id) (k' : string) :
  setProperty o k !! k' =
  if decide (propertyKey k = "__proto__") then o !! k'
  else if decide (propertyKey k = k') then Some true else o !! k'.
Proof.
  unfold setProperty. case_decide; [reflexivity|]. apply lookup_insert.
Qed.

Lemma setProperty_marked (o : gmap string bool) (k : Id) (k' : string) :
  marked o k' -> marked (setProperty o k) k'.
Proof. unfold marked. rewrite setProperty_lookup. intros ->. by repeat case_decide. Qed.

Lemma setProperty_marked_same (o : gmap string bool) (k : Id) :
  propertyKey k ≠ "__proto__" -> marked (setProperty o k) (propertyKey k).
Proof.
  intros Hk. unfold marked. rewrite setProperty_lookup.
  rewrite decide_False by exact Hk. by rewrite decide_True.
Qed.

Lemma setProperty_hasOwn (o : gmap string bool) (k : Id) (k' : string) :
  hasOwn o k' = true -> hasOwn (setProperty o k) k' = true.
Proof.
  rewrite !hasOwn_true, setProperty_lookup. intros [x Hx].
  repeat case_decide; rewrite ?Hx; by eexists.
Qed.

Lemma setProperty_hasOwn_ne (o : gmap string bool) (k : Id) (k' : string) :
  propertyKey k ≠ k' -> hasOwn (setProperty o k) k' = hasOwn o k'.
Proof.
  intros Hne. unfold hasOwn. rewrite setProperty_lookup.
  case_decide; [reflexivity|]. by rewrite decide_False.
Qed.

Lemma setProperty_unshadowed (o : gmap string bool) (k : Id) :
  unshadowed o -> propertyKey k ≠ "hasOwnProperty" -> unshadowed (setProperty o k).
Proof.
  intros Hu Hk. apply unshadowed_hasOwn. rewrite setProperty_hasOwn_ne by exact Hk.
  by apply unshadowed_hasOwn.
Qed.

Lemma setProperty_marked_id (o : gmap string bool) (k : Id) :
  marked o (propertyKey k) -> setProperty o k = o.
Proof.
  intros Hm. unfold setProperty. case_decide; [reflexivity|]. by apply insert_id.
Qed.

Lemma insert_unshadowed (o : gmap string bool) (k : string) :
  unshadowed o -> k ≠ "hasOwnProperty" -> unshadowed (<[k := true]> o).
Proof. intros Hu Hk. unfold unshadowed. by rewrite lookup_insert_ne. Qed.

Lemma dom_insert_known (o : gmap string bool) (k : string) (seen : gset string) :
  dom o = seen -> k ∈ seen -> dom (<[k := true]> o) = seen.
Proof.
  intros <- Hk. rewrite dom_insert_L.
  apply subseteq_union_1_L, singleton_subseteq_l, Hk.
Qed.

(** On a set that is not shadowed, a registration with an ordinary key
    completes, inserts the key, and adds the bytes when the key is new. *)
Lemma addBuffer_ordinary (b : Buffer.t) (f : bool) (s : ModelExperimentalStatistics) :
  unshadowed (_bufferIdSet s) ->
  propertyKey (Buffer._id b) ≠ "__proto__" ->
  addBuffer (Object b) (Boolean f) s =
  (Normal tt,
   set_bufferIdSet (<[propertyKey (Buffer._id b) := true]> (_bufferIdSet s))
     (if hasOwn (_bufferIdSet s) (propertyKey (Buffer._id b)) then s
      else set_geometryByteLength (geometryByteLength s + bufferBytes b f) s)).
Proof.
  intros Hu Hk. rewrite addBuffer_eq. unfold hasOwnProperty.
  apply unshadowed_hasOwn in Hu. rewrite Hu. by rewrite setProperty_ordinary.
Qed.

Lemma addTexture_ordinary (t : Texture.t) (s : ModelExperimentalStatistics) :
  unshadowed (_textureIdSet s) ->
  propertyKey (Texture._id t) ≠ "__proto__" ->
  addTexture (Object t) s =
  (Normal tt,
   set_textureIdSet (<[propertyKey (Texture._id t) := true]> (_textureIdSet s))
     (if hasOwn (_textureIdSet s) (propertyKey (Texture._id t)) then s
      else set_texturesByteLength (texturesByteLength s + Texture.sizeInBytes t) s)).
Proof.
  intros Hu Hk. rewrite addTexture_eq. unfold hasOwnProperty.
  apply unshadowed_hasOwn in Hu. rewrite Hu. by rewrite setProperty_ordinary.
Qed.

(** A blocked key makes the registration leave the record as it is. *)
Lemma addBuffer_blocked (b : Buffer.t) (f : bool) (s : ModelExperimentalStatistics) :
  blocked (_bufferIdSet s) (propertyKey (Buffer._id b)) ->
  after (addBuffer (Object b) (Boolean f)) s = s.
Proof.
  intros [Hs|Hm]; rewrite after_addBuffer.
  - by rewrite Hs.
  - destruct (hasOwn _ "hasOwnProperty"); [reflexivity|].
    rewrite (marked_hasOwn _ _ Hm), (setProperty_marked_id _ _ Hm). by destruct s.
Qed.

Lemma addTexture_blocked (t : Texture.t) (s : ModelExperimentalStatistics) :
  blocked (_textureIdSet s) (propertyKey (Texture._id t)) ->
  after (addTexture (Object t)) s = s.
Proof.
  intros [Hs|Hm]; rewrite after_addTexture.
  - by rewrite Hs.
  - destruct (hasOwn _ "hasOwnProperty"); [reflexivity|].
    rewrite (marked_hasOwn _ _ Hm), (setProperty_marked_id _ _ Hm). by destruct s.
Qed.

(** A registration blocks its own key, unless the key is ["__proto__"],
    and keeps every blocked key blocked. *)
Lemma addBuffer_blocks (b : Buffer.t) (f : bool) (s : ModelExperimentalStatistics) :
  propertyKey (Buffer._id b) ≠ "__proto__" ->
  blocked (_bufferIdSet (after (addBuffer (Object b) (Boolean f)) s))
          (propertyKey (Buffer._id b)).
Proof.
  intros Hk. rewrite after_addBuffer.
  destruct (hasOwn _ "hasOwnProperty") eqn:Hs; [by left|].
  right. simpl. by apply setProperty_marked_same.
Qed.

Lemma addTexture_blocks (t : Texture.t) (s : ModelExperimentalStatistics) :
  propertyKey (Texture._id t) ≠ "__proto__" ->
  blocked (_textureIdSet (after (addTexture (Object t)) s))
          (propertyKey (Texture._id t)).
Proof.
  intros Hk. rewrite after_addTexture.
  destruct (hasOwn _ "hasOwnProperty") eqn:Hs; [by left|].
  right. simpl. by apply setProperty_marked_same.
Qed.

Lemma addBuffer_keeps_blocked (b : Buffer.t) (f : bool)
    (s : ModelExperimentalStatistics) (k : string) :
  blocked (_bufferIdSet s) k ->
  blocked (_bufferIdSet (after (addBuffer (Object b) (Boolean f)) s)) k.
Proof.
  intros Hb. rewrite after_addBuffer.
  destruct (hasOwn _ "hasOwnProperty") eqn:Hs; [exact Hb|].
  destruct Hb as [Hb|Hm]; [congruence|]. right. simpl. by apply setProperty_marked.
Qed.

Lemma addTexture_keeps_blocked (t : Texture.t)
    (s : ModelExperimentalStatistics) (k : string) :
  blocked (_textureIdSet s) k ->
  blocked (_textureIdSet (after (addTexture (Object t)) s)) k.
Proof.
  intros Hb. rewrite after_addTexture.
  destruct (hasOwn _ "hasOwnProperty") eqn:Hs; [exact Hb|].
  destruct Hb as [Hb|Hm]; [congruence|]. right. simpl. by apply setProperty_marked.
Qed.

(** Each kind of registration leaves the id set of the other kind alone. *)
Lemma after_addBuffer_textureIdSet (b : Buffer.t) (f : bool) (s : ModelExperimentalStatistics) :
  _textureIdSet (after (addBuffer (Object b) (Boolean f)) s) = _textureIdSet s.
Proof. rewrite after_addBuffer. by repeat case_match. Qed.

Lemma after_addTexture_bufferIdSet (t : Texture.t) (s : ModelExperimentalStatistics) :
  _bufferIdSet (after (addTexture (Object t)) s) = _bufferIdSet s.
Proof. rewrite after_addTexture. by repeat case_match. Qed.

Lemma after_addBatchTexture_idSets (h : Store) (r : ref) (s : ModelExperimentalStatistics) :
  _bufferIdSet (after (addBatchTexture h (Object r)) s) = _bufferIdSet s
  /\ _textureIdSet (after (addBatchTexture h (Object r)) s) = _textureIdSet s.
Proof. rewrite after_addBatchTexture. by repeat case_match. Qed.

(** ** Totals of a sequence of registrations *)

(** The invariant behind the totals: when the id sets hold exactly the
    keys [seenB] and [seenT] and every key is ordinary, a sequence adds
    the bytes of those of its registrations that are the first of their
    identity. *)
Lemma registerAll_totals (rs : list Registration) :
  forall (s : ModelExperimentalStatistics) (seenB seenT : gset string),
    Forall ordinaryRegistration rs ->
    unshadowed (_bufferIdSet s) ->
    unshadowed (_textureIdSet s) ->
    dom (_bufferIdSet s) = seenB ->
    dom (_textureIdSet s) = seenT ->
    geometryByteLength (after (registerAll rs) s) =
      geometryByteLength s
      + sumZ (geometryBytesOf <$> firstRegistrationsFrom seenB seenT rs)
    /\ texturesByteLength (after (registerAll rs) s) =
      texturesByteLength s
      + sumZ (textureBytesOf <$> firstRegistrationsFrom seenB seenT rs).
Proof.
  induction rs as [|r rs IH]; intros s seenB seenT Hord HuB HuT HB HT.
  { unfold after. simpl. split; lia. }
  apply Forall_cons in Hord as [Hr Hord].
  unfold after. rewrite registerAll_cons.
  fold (after (registerAll rs) (after (register r) s)).
  destruct r as [b f|t]; simpl firstRegistrationsFrom; unfold after at 2 4;
    simpl register; destruct Hr as [Hproto Hhop].
  - rewrite (addBuffer_ordinary b f s HuB Hproto), hasOwn_dom, HB. cbn [snd].
    case_bool_decide as Hk.
    + destruct (IH (set_bufferIdSet
                      (<[propertyKey (Buffer._id b):=true]> (_bufferIdSet s)) s)
                  seenB seenT) as [-> ->];
        [exact Hord | by apply insert_unshadowed | exact HuT
         | by apply dom_insert_known | exact HT | done].
    + destruct (IH (set_bufferIdSet
                      (<[propertyKey (Buffer._id b):=true]> (_bufferIdSet s))
                      (set_geometryByteLength
                         (geometryByteLength s + bufferBytes b f) s))
                  ({[propertyKey (Buffer._id b)]} ∪ seenB) seenT) as [-> ->];
        [exact Hord | by apply insert_unshadowed | exact HuT
         | by rewrite <- HB; apply dom_insert_L | exact HT |].
      rewrite !fmap_cons, !sumZ_cons. simpl. split; lia.
  - rewrite (addTexture_ordinary t s HuT Hproto), hasOwn_dom, HT. cbn [snd].
    case_bool_decide as Hk.
    + destruct (IH (set_textureIdSet
                      (<[propertyKey (Texture._id t):=true]> (_textureIdSet s)) s)
                  seenB seenT) as [-> ->];
        [exact Hord | exact HuB | by apply insert_unshadowed
         | exact HB | by apply dom_insert_known | done].
    + destruct (IH (set_textureIdSet
                      (<[propertyKey (Texture._id t):=true]> (_textureIdSet s))
                      (set_texturesByteLength
                         (texturesByteLength s + Texture.sizeInBytes t) s))
                  seenB ({[propertyKey (Texture._id t)]} ∪ seenT)) as [-> ->];
        [exact Hord | exact HuB | by apply insert_unshadowed
         | exact HB | by rewrite <- HT; apply dom_insert_L |].
      rewrite !fmap_cons, !sumZ_cons. simpl. split; lia.
Qed.

Lemma registerAll_totals_new (rs : list Registration) :
  Forall ordinaryRegistration rs ->
  geometryByteLength (after (registerAll rs) new) =
    sumZ (geometryBytesOf <$> firstRegistrations rs)
  /\ texturesByteLength (after (registerAll rs) new) =
    sumZ (textureBytesOf <$> firstRegistrations rs).
Proof.
  intros Hord.
  destruct (registerAll_totals rs new ∅ ∅ Hord) as [HG HT];
    [reflexivity | reflexivity | apply dom_empty_L..|].
  rewrite HG, HT. split; reflexivity.
Qed.

(** ** First registrations: one per identity *)

Lemma bufferKeys_firstRegistrationsFrom (rs : list Registration) :
  forall (seenB seenT : gset string) (k : string),
    k ∈ bufferKeys (firstRegistrationsFrom seenB seenT rs) <->
    k ∈ bufferKeys rs /\ k ∉ seenB.
Proof.
  induction rs as [|[b f|t] rs IH]; intros seenB seenT k.
  - simpl. rewrite elem_of_nil. tauto.
  - simpl firstRegistrationsFrom. change (bufferKeys (RegBuffer b f :: rs))
      with (propertyKey (Buffer._id b) :: bufferKeys rs).
    rewrite elem_of_cons. case_bool_decide as Hk.
    + rewrite IH. split; [tauto|]. intros [[->|?] ?]; tauto.
    + change (bufferKeys (RegBuffer b f :: ?l))
        with (propertyKey (Buffer._id b) :: bufferKeys l).
      rewrite elem_of_cons, IH, elem_of_union, elem_of_singleton.
      destruct (decide (k = propertyKey (Buffer._id b))) as [->|Hne]; tauto.
  - simpl firstRegistrationsFrom. change (bufferKeys (RegTexture t :: rs))
      with (bufferKeys rs).
    case_bool_decide; [apply IH|].
    change (bufferKeys (RegTexture t :: ?l)) with (bufferKeys l). apply IH.
Qed.

Lemma textureKeys_firstRegistrationsFrom (rs : list Registration) :
  forall (seenB seenT : gset string) (k : string),
    k ∈ textureKeys (firstRegistrationsFrom seenB seenT rs) <->
    k ∈ textureKeys rs /\ k ∉ seenT.
Proof.
  induction rs as [|[b f|t] rs IH]; intros seenB seenT k.
  - simpl. rewrite elem_of_nil. tauto.
  - simpl firstRegistrationsFrom. change (textureKeys (RegBuffer b f :: rs))
      with (textureKeys rs).
    case_bool_decide; [apply IH|].
    change (textureKeys (RegBuffer b f :: ?l)) with (textureKeys l). apply IH.
  - simpl firstRegistrationsFrom. change (textureKeys (RegTexture t :: rs))
      with (propertyKey (Texture._id t) :: textureKeys rs).
    rewrite elem_of_cons. case_bool_decide as Hk.
    + rewrite IH. split; [tauto|]. intros [[->|?] ?]; tauto.
    + change (textureKeys (RegTexture t :: ?l))
        with (propertyKey (Texture._id t) :: textureKeys l).
      rewrite elem_of_cons, IH, elem_of_union, elem_of_singleton.
      destruct (decide (k = propertyKey (Texture._id t))) as [->|Hne]; tauto.
Qed.

Lemma NoDup_bufferKeys_firstRegistrationsFrom (rs : list Registration) :
  forall seenB seenT : gset string,
    NoDup (bufferKeys (firstRegistrationsFrom seenB seenT rs)).
Proof.
  induction rs as [|[b f|t] rs IH]; intros seenB seenT; simpl firstRegistrationsFrom.
  - constructor.
  - case_bool_decide; [apply IH|].
    change (bufferKeys (RegBuffer b f :: ?l))
      with (propertyKey (Buffer._id b) :: bufferKeys l).
    constructor; [|apply IH].
    rewrite bufferKeys_firstRegistrationsFrom, elem_of_union, elem_of_singleton. tauto.
  - case_bool_decide; [apply IH|].
    change (bufferKeys (RegTexture t :: ?l)) with (bufferKeys l). apply IH.
Qed.

Lemma NoDup_textureKeys_firstRegistrationsFrom (rs : list Registration) :
  forall seenB seenT : gset string,
    NoDup (textureKeys (firstRegistrationsFrom seenB seenT rs)).
Proof.
  induction rs as [|[b f|t] rs IH]; intros seenB seenT; simpl firstRegistrationsFrom.
  - constructor.
  - case_bool_decide; [apply IH|].
    change (textureKeys (RegBuffer b f :: ?l)) with (textureKeys l). apply IH.
  - case_bool_decide; [apply IH|].
    change (textureKeys (RegTexture t :: ?l))
      with (propertyKey (Texture._id t) :: textureKeys l).
    constructor; [|apply IH].
    rewrite textureKeys_firstRegistrationsFrom, elem_of_union, elem_of_singleton. tauto.
Qed.

(** Keeping the first registrations of a sequence that has only first
    registrations keeps all of it. *)
Lemma firstRegistrationsFrom_idemp (rs : list Registration) :
  forall seenB seenT : gset string,
    firstRegistrationsFrom seenB seenT (firstRegistrationsFrom seenB seenT rs) =
    firstRegistrationsFrom seenB seenT rs.
Proof.
  induction rs as [|[b f|t] rs IH]; intros seenB seenT; simpl; [reflexivity|..].
  - case_bool_decide as Hk; [apply IH|].
    simpl. rewrite bool_decide_eq_false_2 by exact Hk. f_equal. apply IH.
  - case_bool_decide as Hk; [apply IH|].
    simpl. rewrite bool_decide_eq_false_2 by exact Hk. f_equal. apply IH.
Qed.


Lemma firstRegistrationsFrom_ordinary (rs : list Registration) :
  forall seenB seenT : gset string,
    Forall ordinaryRegistration rs ->
    Forall ordinaryRegistration (firstRegistrationsFrom seenB seenT rs).
Proof.
  induction rs as [|[b f|t] rs IH]; intros seenB seenT Hord; [constructor|..];
    apply Forall_cons in Hord as [Hr Hord]; simpl; case_bool_decide;
    try (by apply IH); apply Forall_cons; split; try done; by apply IH.
Qed.

(** ** The totals of a generation *)


(** X14: in one generation, each distinct buffer identity and each
    distinct texture identity with an ordinary key is counted once, for
    sizes in the safe range. The first registrations of a call
    sequence hold every identity of the sequence exactly once; the totals
    after the whole sequence are the sums over these, and are the totals
    of the sequence in which every identity is registered once. *)
Theorem registrations_counted_once
    (s : ModelExperimentalStatistics) (rs : list Registration) :
  Forall ordinaryRegistration rs ->
  safeSizes rs ->
  let once := firstRegistrations rs in
  let s' := after (registerAll rs) (after clear s) in
  let s1 := after (registerAll once) (after clear s) in
  (NoDup (bufferKeys once) /\ NoDup (textureKeys once))
  /\ (forall k, k ∈ bufferKeys once <-> k ∈ bufferKeys rs)
  /\ (forall k, k ∈ textureKeys once <-> k ∈ textureKeys rs)
  /\ geometryByteLength s' = sumZ (geometryBytesOf <$> once)
  /\ texturesByteLength s' = sumZ (textureBytesOf <$> once)
  /\ geometryByteLength s' = geometryByteLength s1
  /\ texturesByteLength s' = texturesByteLength s1.
Proof.
  intros Hord _ once s' s1. subst once s' s1. rewrite !after_clear.
  destruct (registerAll_totals_new rs Hord) as [HG HT].
  destruct (registerAll_totals_new (firstRegistrations rs)) as [HG1 HT1].
  { by apply firstRegistrationsFrom_ordinary. }
  unfold firstRegistrations in HG1, HT1 |- *.
  rewrite firstRegistrationsFrom_idemp in HG1, HT1.
  repeat split.
  - apply NoDup_bufferKeys_firstRegistrationsFrom.
  - apply NoDup_textureKeys_firstRegistrationsFrom.
  - intros Hk. by apply bufferKeys_firstRegistrationsFrom in Hk as [? _].
  - intros Hk. apply bufferKeys_firstRegistrationsFrom. split; [done|]. apply not_elem_of_empty.
  - intros Hk. by apply textureKeys_firstRegistrationsFrom in Hk as [? _].
  - intros Hk. apply textureKeys_firstRegistrationsFrom. split; [done|]. apply not_elem_of_empty.
  - exact HG.
  - exact HT.
  - by rewrite HG, HG1.
  - by rewrite HT, HT1.
Qed.


(** X15: two call sequences of a generation, of identities with
    ordinary keys and sizes in the safe range, whose first registrations
    are the same up to order (the same distinct identities, with the same
    sizes and flags) end with the same totals. *)
Theorem registrations_order_irrelevant
    (s : ModelExperimentalStatistics) (rs1 rs2 : list Registration) :
  Forall ordinaryRegistration rs1 ->
  Forall ordinaryRegistration rs2 ->
  safeSizes rs1 ->
  safeSizes rs2 ->
  firstRegistrations rs1 ≡ₚ firstRegistrations rs2 ->
  geometryByteLength (after (registerAll rs1) (after clear s)) =
    geometryByteLength (after (registerAll rs2) (after clear s))
  /\ texturesByteLength (after (registerAll rs1) (after clear s)) =
    texturesByteLength (after (registerAll rs2) (after clear s)).
Proof.
  intros Hord1 Hord2 _ _ Hperm. rewrite !after_clear.
  destruct (registerAll_totals_new rs1 Hord1) as [-> ->].
  destruct (registerAll_totals_new rs2 Hord2) as [-> ->].
  split; apply sumZ_Permutation, fmap_Permutation, Hperm.
Qed.

(** ** The overlay total *)

(** C2: the getter sums the current sizes of the retained references.
    After the events of a generation the registry holds, for each distinct
    overlay-texture identity registered, the first reference registered
    with it; a read in a state [h] of the store, with sizes in the safe
    range, is the sum of the sizes these references have in [h], so a size
    change between two reads shows in the second read without any
    registration in between. *)
Theorem batchTexturesByteLength_live
    (h0 : Store) (s : ModelExperimentalStatistics) (es : list Event)
    (h : Store) (r : ref) (n : Z) :
  let w := run es (h0, after clear s) in
  let kept := retained h0 es in
  safeStore h kept ->
  safeStore (setByteLength r n h) kept ->
  NoDup (batchTextureKey h0 <$> kept)
  /\ (forall k, k ∈ batchTextureKey h0 <$> kept <->
                k ∈ batchTextureKey h0 <$> batchTextureRefs es)
  /\ AssociativeArray.values (_batchTextureIdMap w.2) = kept
  /\ batchTexturesByteLength h w.2 =
     sumZ ((fun r => BatchTexture.byteLength (h r)) <$> kept)
  /\ batchTexturesByteLength (setByteLength r n h) w.2 =
     batchTexturesByteLength h w.2
     + (if bool_decide (r ∈ kept) then n - BatchTexture.byteLength (h r) else 0).
Proof.
  intros w kept _ _.
  assert (AssociativeArray.values (_batchTextureIdMap w.2) = kept) as Hvalues.
  { subst w kept. rewrite after_clear. apply run_values_new. }
  assert (NoDup (batchTextureKey h0 <$> kept)) as Hnd
    by apply NoDup_retainedFrom_keys.
  split; [exact Hnd|]. split; [|split; [exact Hvalues|split]].
  - intros k. subst kept. unfold retained. rewrite retainedFrom_keys.
    split; [tauto|]. intros Hk. split; [exact Hk|]. apply not_elem_of_empty.
  - by rewrite batchTexturesByteLength_sum, Hvalues.
  - rewrite !batchTexturesByteLength_sum, Hvalues.
    apply (sumZ_fmap_update (fun r' => BatchTexture.byteLength (h r'))).
    + intros r'. apply setByteLength_byteLength.
    + eapply NoDup_fmap_1, Hnd.
Qed.

(** ** A first registration *)



(** ** Identities that name members of [Object.prototype] *)


(** C8, evaluated where the code departs from it: [null] passes the type
    check of each registration, and the read of its [_id] throws a
    [TypeError]; and once the identity ["hasOwnProperty"] is registered,
    every later registration of that kind passes its type check and
    throws a [TypeError] at the membership test. *)
Theorem registration_throws_past_type_check :
  addBuffer Null (Boolean true) new = (Throw TypeError, new)
  /\ addTexture Null new = (Throw TypeError, new)
  /\ addBatchTexture store0 Null new = (Throw TypeError, new)
  /\ (let s := after (addBuffer (Object bufferHasOwnProperty) (Boolean false)) new in
      addBuffer (Object bufferA) (Boolean false) s = (Throw TypeError, s))
  /\ (let s := after (addTexture (Object textureHasOwnProperty)) new in
      addTexture (Object textureT1) s = (Throw TypeError, s)).
Proof. repeat split. Qed.


(** * Further properties of the record *)

(** ** What the id sets hold *)

Lemma after_addBuffer_ordinary_idSet (b : Buffer.t) (f : bool)
    (s : ModelExperimentalStatistics) :
  unshadowed (_bufferIdSet s) ->
  propertyKey (Buffer._id b) ≠ "__proto__" ->
  _bufferIdSet (after (addBuffer (Object b) (Boolean f)) s) =
  <[propertyKey (Buffer._id b) := true]> (_bufferIdSet s).
Proof.
  intros Hu Hk. unfold after. rewrite addBuffer_ordinary by done. reflexivity.
Qed.

Lemma after_addTexture_ordinary_idSet (t : Texture.t) (s : ModelExperimentalStatistics) :
  unshadowed (_textureIdSet s) ->
  propertyKey (Texture._id t) ≠ "__proto__" ->
  _textureIdSet (after (addTexture (Object t)) s) =
  <[propertyKey (Texture._id t) := true]> (_textureIdSet s).
Proof.
  intros Hu Hk. unfold after. rewrite addTexture_ordinary by done. reflexivity.
Qed.

Lemma lookup_insert_registered (o : gmap string bool) (k k0 : string) (l : list string) :
  (if bool_decide (k ∈ l) then Some true else <[k0 := true]> o !! k) =
  (if bool_decide (k ∈ k0 :: l) then Some true else o !! k).
Proof.
  destruct (decide (k = k0)) as [->|Hne].
  - rewrite lookup_insert_eq.
    rewrite (bool_decide_eq_true_2 (_ ∈ _ :: _)) by apply list_elem_of_here.
    by case_bool_decide.
  - rewrite lookup_insert_ne by congruence.
    rewrite (bool_decide_ext (k ∈ k0 :: l) (k ∈ l)); [reflexivity|].
    rewrite elem_of_cons. tauto.
Qed.

Lemma run_idSets (es : list Event) :
  forall (w : Store * ModelExperimentalStatistics) (k : string),
    Forall ordinaryRegistration (eventRegistrations es) ->
    unshadowed (_bufferIdSet w.2) ->
    unshadowed (_textureIdSet w.2) ->
    (unshadowed (_bufferIdSet (run es w).2) /\ unshadowed (_textureIdSet (run es w).2))
    /\ _bufferIdSet (run es w).2 !! k =
       (if bool_decide (k ∈ bufferKeys (eventRegistrations es)) then Some true
        else _bufferIdSet w.2 !! k)
    /\ _textureIdSet (run es w).2 !! k =
       (if bool_decide (k ∈ textureKeys (eventRegistrations es)) then Some true
        else _textureIdSet w.2 !! k).
Proof.
  induction es as [|e es IH]; intros w k Hord HuB HuT.
  { change (run [] w) with w. split; [done|].
    split; (case_bool_decide as Hk; [by apply elem_of_nil in Hk | reflexivity]). }
  rewrite run_cons.
  destruct e as [b f|t|r|r n].
  - change (eventRegistrations (EvAddBuffer b f :: es))
      with (RegBuffer b f :: eventRegistrations es) in Hord |- *.
    apply Forall_cons in Hord as [[Hproto Hhop] Hord].
    change (bufferKeys (RegBuffer b f :: eventRegistrations es))
      with (propertyKey (Buffer._id b) :: bufferKeys (eventRegistrations es)).
    change (textureKeys (RegBuffer b f :: eventRegistrations es))
      with (textureKeys (eventRegistrations es)).
    destruct (IH (step (EvAddBuffer b f) w) k Hord) as (Hu & -> & ->); simpl.
    + rewrite after_addBuffer_ordinary_idSet by done. by apply insert_unshadowed.
    + by rewrite after_addBuffer_textureIdSet.
    + split; [exact Hu|].
      rewrite after_addBuffer_ordinary_idSet, after_addBuffer_textureIdSet by done.
      split; [apply lookup_insert_registered | reflexivity].
  - change (eventRegistrations (EvAddTexture t :: es))
      with (RegTexture t :: eventRegistrations es) in Hord |- *.
    apply Forall_cons in Hord as [[Hproto Hhop] Hord].
    change (textureKeys (RegTexture t :: eventRegistrations es))
      with (propertyKey (Texture._id t) :: textureKeys (eventRegistrations es)).
    change (bufferKeys (RegTexture t :: eventRegistrations es))
      with (bufferKeys (eventRegistrations es)).
    destruct (IH (step (EvAddTexture t) w) k Hord) as (Hu & -> & ->); simpl.
    + by rewrite after_addTexture_bufferIdSet.
    + rewrite after_addTexture_ordinary_idSet by done. by apply insert_unshadowed.
    + split; [exact Hu|].
      rewrite after_addTexture_ordinary_idSet, after_addTexture_bufferIdSet by done.
      split; [reflexivity | apply lookup_insert_registered].
  - change (eventRegistrations (EvAddBatchTexture r :: es)) with (eventRegistrations es)
      in Hord |- *.
    destruct (after_addBatchTexture_idSets w.1 r w.2) as [HB HT].
    destruct (IH (step (EvAddBatchTexture r) w) k Hord) as (Hu & -> & ->); simpl;
      rewrite ?HB, ?HT; done.
  - change (eventRegistrations (EvSetByteLength r n :: es)) with (eventRegistrations es)
      in Hord |- *.
    by apply (IH (step (EvSetByteLength r n) w)).
Qed.

(** X1: on id sets that are not shadowed, after events whose buffers and
    textures have ordinary keys, a key registered by one of the events is
    in the id set of its kind with the marker [true], every other key is
    as it was before the events, and the sets are still not shadowed. *)
Theorem id_sets_hold_registered_keys
    (w : Store * ModelExperimentalStatistics) (es : list Event) (k : string) :
  Forall ordinaryRegistration (eventRegistrations es) ->
  unshadowed (_bufferIdSet w.2) ->
  unshadowed (_textureIdSet w.2) ->
  let s' := (run es w).2 in
  let regs := eventRegistrations es in
  (_bufferIdSet s' !! k =
     if bool_decide (k ∈ bufferKeys regs) then Some true else _bufferIdSet w.2 !! k)
  /\ (_textureIdSet s' !! k =
       if bool_decide (k ∈ textureKeys regs) then Some true
       else _textureIdSet w.2 !! k)
  /\ unshadowed (_bufferIdSet s')
  /\ unshadowed (_textureIdSet s').
Proof.
  intros Hord HuB HuT s' regs. subst s' regs.
  destruct (run_idSets es w k Hord HuB HuT) as ([? ?] & ? & ?). by repeat split.
Qed.

(** ** Bounds on the accumulated totals *)

Lemma register_bounds (r : Registration) (s : ModelExperimentalStatistics) :
  0 <= sizeOf r ->
  (geometryByteLength s <= geometryByteLength (after (register r) s)
     <= geometryByteLength s + geometryBytesOf r)
  /\ (texturesByteLength s <= texturesByteLength (after (register r) s)
        <= texturesByteLength s + textureBytesOf r).
Proof.
  destruct r as [b f|t]; simpl; intros Hpos.
  - rewrite after_addBuffer. unfold bufferBytes.
    repeat case_match; simpl; lia.
  - rewrite after_addTexture. repeat case_match; simpl; lia.
Qed.

Lemma registerAll_bounds (rs : list Registration) :
  forall s : ModelExperimentalStatistics,
    Forall (fun r => 0 <= sizeOf r) rs ->
    (geometryByteLength s <= geometryByteLength (after (registerAll rs) s)
       <= geometryByteLength s + sumZ (geometryBytesOf <$> rs))
    /\ (texturesByteLength s <= texturesByteLength (after (registerAll rs) s)
          <= texturesByteLength s + sumZ (textureBytesOf <$> rs)).
Proof.
  induction rs as [|r rs IH]; intros s Hpos.
  { unfold after, sumZ. simpl. lia. }
  apply Forall_cons in Hpos as [Hr Hpos].
  unfold after. rewrite registerAll_cons.
  fold (after (registerAll rs) (after (register r) s)).
  rewrite !fmap_cons, !sumZ_cons.
  pose proof (register_bounds r s Hr). pose proof (IH (after (register r) s) Hpos).
  lia.
Qed.

(** X3: when no registered size is negative and the totals stay in the
    safe range, a sequence of registrations run from any record never
    lowers a total, and raises it by at most the plain sum of what the
    sequence registers (twice the size for a buffer with a CPU copy):
    deduplication can only drop bytes, never add any. *)
Theorem totals_between_start_and_plain_sum
    (s : ModelExperimentalStatistics) (rs : list Registration) :
  Forall (fun r => 0 <= sizeOf r) rs ->
  safeTotal (geometryByteLength s) ->
  safeTotal (geometryByteLength s + sumZ (geometryBytesOf <$> rs)) ->
  safeTotal (texturesByteLength s) ->
  safeTotal (texturesByteLength s + sumZ (textureBytesOf <$> rs)) ->
  let s' := after (registerAll rs) s in
  (geometryByteLength s <= geometryByteLength s'
     <= geometryByteLength s + sumZ (geometryBytesOf <$> rs))
  /\ (texturesByteLength s <= texturesByteLength s'
        <= texturesByteLength s + sumZ (textureBytesOf <$> rs)).
Proof. intros Hpos _ _ _ _ s'. by apply registerAll_bounds. Qed.

Lemma firstRegistrationsFrom_all (rs : list Registration) :
  forall seenB seenT : gset string,
    NoDup (bufferKeys rs) -> NoDup (textureKeys rs) ->
    (forall k, k ∈ bufferKeys rs -> k ∉ seenB) ->
    (forall k, k ∈ textureKeys rs -> k ∉ seenT) ->
    firstRegistrationsFrom seenB seenT rs = rs.
Proof.
  induction rs as [|[b f|t] rs IH]; intros seenB seenT HB HT HsB HsT; [reflexivity|..].
  - change (bufferKeys (RegBuffer b f :: rs))
      with (propertyKey (Buffer._id b) :: bufferKeys rs) in HB, HsB.
    change (textureKeys (RegBuffer b f :: rs)) with (textureKeys rs) in HT, HsT.
    apply NoDup_cons in HB as [Hb HB]. simpl.
    rewrite bool_decide_eq_false_2 by (apply HsB, list_elem_of_here).
    f_equal. apply IH; try done.
    intros k Hk. rewrite elem_of_union, elem_of_singleton.
    intros [->|Hin]; [done|]. by apply (HsB k); [apply list_elem_of_further|].
  - change (textureKeys (RegTexture t :: rs))
      with (propertyKey (Texture._id t) :: textureKeys rs) in HT, HsT.
    change (bufferKeys (RegTexture t :: rs)) with (bufferKeys rs) in HB, HsB.
    apply NoDup_cons in HT as [Ht HT]. simpl.
    rewrite bool_decide_eq_false_2 by (apply HsT, list_elem_of_here).
    f_equal. apply IH; try done.
    intros k Hk. rewrite elem_of_union, elem_of_singleton.
    intros [->|Hin]; [done|]. by apply (HsT k); [apply list_elem_of_further|].
Qed.

(** X4: when no identity is registered twice, every key is ordinary and
    the sizes are in the safe range, nothing is dropped: on a new record
    the totals after the sequence are the plain sums of the registered
    bytes, and every registration of the sequence is a first
    registration. *)
Theorem distinct_identities_all_counted (rs : list Registration) :
  Forall ordinaryRegistration rs ->
  safeSizes rs ->
  NoDup (bufferKeys rs) ->
  NoDup (textureKeys rs) ->
  firstRegistrations rs = rs
  /\ geometryByteLength (after (registerAll rs) new) = sumZ (geometryBytesOf <$> rs)
  /\ texturesByteLength (after (registerAll rs) new) = sumZ (textureBytesOf <$> rs).
Proof.
  intros Hord _ HB HT.
  assert (firstRegistrations rs = rs) as Hall.
  { apply firstRegistrationsFrom_all; try done; intros k _; apply not_elem_of_empty. }
  destruct (registerAll_totals_new rs Hord) as [HG HS].
  rewrite Hall in HG, HS. by repeat split.
Qed.

(** ** Registrations of different identities *)

Lemma setProperty_comm (o : gmap string bool) (k1 k2 : Id) :
  propertyKey k1 ≠ propertyKey k2 ->
  setProperty (setProperty o k1) k2 = setProperty (setProperty o k2) k1.
Proof.
  intros Hne. unfold setProperty. repeat case_decide; try reflexivity.
  by apply insert_insert_ne.
Qed.

Lemma addBuffer_addTexture_commute (b : Buffer.t) (f : bool) (t : Texture.t)
    (s : ModelExperimentalStatistics) :
  after (addTexture (Object t)) (after (addBuffer (Object b) (Boolean f)) s) =
  after (addBuffer (Object b) (Boolean f)) (after (addTexture (Object t)) s).
Proof.
  rewrite (after_addBuffer b f s), (after_addTexture t s).
  destruct (hasOwn (_bufferIdSet s) "hasOwnProperty") eqn:HBs,
    (hasOwn (_bufferIdSet s) (propertyKey (Buffer._id b))) eqn:HB,
    (hasOwn (_textureIdSet s) "hasOwnProperty") eqn:HTs,
    (hasOwn (_textureIdSet s) (propertyKey (Texture._id t))) eqn:HT;
    rewrite ?after_addBuffer, ?after_addTexture; simpl;
    rewrite ?HBs, ?HB, ?HTs, ?HT; reflexivity.
Qed.

Lemma addBuffer_addBuffer_commute (b1 b2 : Buffer.t) (f1 f2 : bool)
    (s : ModelExperimentalStatistics) :
  propertyKey (Buffer._id b1) ≠ propertyKey (Buffer._id b2) ->
  propertyKey (Buffer._id b1) ≠ "hasOwnProperty" ->
  propertyKey (Buffer._id b2) ≠ "hasOwnProperty" ->
  after (addBuffer (Object b2) (Boolean f2)) (after (addBuffer (Object b1) (Boolean f1)) s) =
  after (addBuffer (Object b1) (Boolean f1)) (after (addBuffer (Object b2) (Boolean f2)) s).
Proof.
  intros Hne H1 H2.
  rewrite (after_addBuffer b1 f1 s), (after_addBuffer b2 f2 s).
  destruct (hasOwn (_bufferIdSet s) "hasOwnProperty") eqn:Hs.
  { rewrite !after_addBuffer, Hs. reflexivity. }
  rewrite !after_addBuffer.
  destruct (hasOwn (_bufferIdSet s) (propertyKey (Buffer._id b1))) eqn:Hk1,
    (hasOwn (_bufferIdSet s) (propertyKey (Buffer._id b2))) eqn:Hk2;
    simpl; rewrite !setProperty_hasOwn_ne, ?Hs, ?Hk1, ?Hk2 by congruence;
    apply statistics_eq; simpl; try reflexivity; try lia;
    by apply setProperty_comm.
Qed.

Lemma addTexture_addTexture_commute (t1 t2 : Texture.t)
    (s : ModelExperimentalStatistics) :
  propertyKey (Texture._id t1) ≠ propertyKey (Texture._id t2) ->
  propertyKey (Texture._id t1) ≠ "hasOwnProperty" ->
  propertyKey (Texture._id t2) ≠ "hasOwnProperty" ->
  after (addTexture (Object t2)) (after (addTexture (Object t1)) s) =
  after (addTexture (Object t1)) (after (addTexture (Object t2)) s).
Proof.
  intros Hne H1 H2.
  rewrite (after_addTexture t1 s), (after_addTexture t2 s).
  destruct (hasOwn (_textureIdSet s) "hasOwnProperty") eqn:Hs.
  { rewrite !after_addTexture, Hs. reflexivity. }
  rewrite !after_addTexture.
  destruct (hasOwn (_textureIdSet s) (propertyKey (Texture._id t1))) eqn:Hk1,
    (hasOwn (_textureIdSet s) (propertyKey (Texture._id t2))) eqn:Hk2;
    simpl; rewrite !setProperty_hasOwn_ne, ?Hs, ?Hk1, ?Hk2 by congruence;
    apply statistics_eq; simpl; try reflexivity; try lia;
    by apply setProperty_comm.
Qed.

(** X6: two registrations with different identity keys, neither of them
    ["hasOwnProperty"], commute when the sizes are in the safe range:
    either order leaves the same record, whatever the sizes and flags. *)
Theorem registrations_of_different_identities_commute
    (s : ModelExperimentalStatistics) (r1 r2 : Registration) :
  keyOf r1 ≠ keyOf r2 ->
  keyOf r1 ≠ "hasOwnProperty" ->
  keyOf r2 ≠ "hasOwnProperty" ->
  0 <= sizeOf r1 ->
  0 <= sizeOf r2 ->
  safeTotal (geometryByteLength s) ->
  safeTotal (geometryByteLength s + geometryBytesOf r1 + geometryBytesOf r2) ->
  safeTotal (texturesByteLength s) ->
  safeTotal (texturesByteLength s + textureBytesOf r1 + textureBytesOf r2) ->
  after (register r2) (after (register r1) s) =
  after (register r1) (after (register r2) s).
Proof.
  intros Hne H1 H2 _ _ _ _ _ _.
  destruct r1 as [b1 f1|t1], r2 as [b2 f2|t2]; simpl in *.
  - by apply addBuffer_addBuffer_commute.
  - apply addBuffer_addTexture_commute.
  - symmetry. apply addBuffer_addTexture_commute.
  - by apply addTexture_addTexture_commute.
Qed.

(** ** The overlay total *)

(** X7: the overlay total does not depend on the order in which overlay
    textures were registered: two generations that retain the same
    references, in whatever order, read the same total in a store whose
    sizes are in the safe range. *)
Theorem overlay_total_order_irrelevant
    (h0 : Store) (es1 es2 : list Event) (h : Store) :
  retained h0 es1 ≡ₚ retained h0 es2 ->
  safeStore h (retained h0 es1) ->
  batchTexturesByteLength h (run es1 (h0, new)).2 =
  batchTexturesByteLength h (run es2 (h0, new)).2.
Proof.
  intros Hperm _. rewrite !batchTexturesByteLength_sum, !run_values_new.
  apply sumZ_Permutation, fmap_Permutation, Hperm.
Qed.

(** X9: registering an overlay texture raises the overlay total, read in
    a store whose sizes are in the safe range, by the size the texture has
    in that store when its identity is new to the registry, and by nothing
    when the identity is already held. *)
Theorem addBatchTexture_total_delta
    (h h' : Store) (s : ModelExperimentalStatistics) (r : ref) :
  safeStore h' (AssociativeArray.values (_batchTextureIdMap s) ++ [r]) ->
  batchTexturesByteLength h' (after (addBatchTexture h (Object r)) s) =
  batchTexturesByteLength h' s
  + (if AssociativeArray.contains (BatchTexture._id (h r)) (_batchTextureIdMap s)
     then 0 else BatchTexture.byteLength (h' r)).
Proof.
  intros _. rewrite after_addBatchTexture.
  destruct (AssociativeArray.contains _ _) eqn:Hc; [lia|].
  rewrite !batchTexturesByteLength_sum. simpl _batchTextureIdMap.
  rewrite set_absent by exact Hc.
  unfold AssociativeArray.values. rewrite !fmap_app, sumZ_app.
  unfold sumZ at 2. simpl. lia.
Qed.

(** ** Identities registered before *)

Lemma register_keeps_blocked (r : Registration) (s : ModelExperimentalStatistics)
    (k : string) :
  (blocked (_bufferIdSet s) k -> blocked (_bufferIdSet (after (register r) s)) k)
  /\ (blocked (_textureIdSet s) k -> blocked (_textureIdSet (after (register r) s)) k).
Proof.
  destruct r as [b f|t]; simpl; split; intros Hb.
  - by apply addBuffer_keeps_blocked.
  - by rewrite after_addBuffer_textureIdSet.
  - by rewrite after_addTexture_bufferIdSet.
  - by apply addTexture_keeps_blocked.
Qed.

Lemma registerAll_keeps_blocked (rs : list Registration) :
  forall (s : ModelExperimentalStatistics) (k : string),
    (blocked (_bufferIdSet s) k ->
     blocked (_bufferIdSet (after (registerAll rs) s)) k)
    /\ (blocked (_textureIdSet s) k ->
        blocked (_textureIdSet (after (registerAll rs) s)) k).
Proof.
  induction rs as [|r rs IH]; intros s k; [done|].
  unfold after. rewrite registerAll_cons.
  fold (after (registerAll rs) (after (register r) s)).
  destruct (register_keeps_blocked r s k) as [HB HT].
  destruct (IH (after (register r) s) k) as [HB' HT']. split; auto.
Qed.

Lemma registerAll_blocks (rs : list Registration) :
  forall (s : ModelExperimentalStatistics) (k : string),
    k ≠ "__proto__" ->
    (k ∈ bufferKeys rs -> blocked (_bufferIdSet (after (registerAll rs) s)) k)
    /\ (k ∈ textureKeys rs -> blocked (_textureIdSet (after (registerAll rs) s)) k).
Proof.
  induction rs as [|r rs IH]; intros s k Hk.
  { split; intros H; by apply elem_of_nil in H. }
  unfold after. rewrite registerAll_cons.
  fold (after (registerAll rs) (after (register r) s)).
  destruct (IH (after (register r) s) k Hk) as [HB HT].
  destruct (registerAll_keeps_blocked rs (after (register r) s) k) as [KB KT].
  destruct r as [b f|t].
  - change (bufferKeys (RegBuffer b f :: rs))
      with (propertyKey (Buffer._id b) :: bufferKeys rs).
    change (textureKeys (RegBuffer b f :: rs)) with (textureKeys rs).
    split; [|exact HT]. rewrite elem_of_cons. intros [->|Hin]; [|by apply HB].
    apply KB. simpl. by apply addBuffer_blocks.
  - change (textureKeys (RegTexture t :: rs))
      with (propertyKey (Texture._id t) :: textureKeys rs).
    change (bufferKeys (RegTexture t :: rs)) with (bufferKeys rs).
    split; [exact HB|]. rewrite elem_of_cons. intros [->|Hin]; [|by apply HT].
    apply KT. simpl. by apply addTexture_blocks.
Qed.

Lemma registerAll_blocked (rs : list Registration) :
  forall s : ModelExperimentalStatistics,
    (forall k, k ∈ bufferKeys rs -> blocked (_bufferIdSet s) k) ->
    (forall k, k ∈ textureKeys rs -> blocked (_textureIdSet s) k) ->
    after (registerAll rs) s = s.
Proof.
  induction rs as [|r rs IH]; intros s HB HT; [reflexivity|].
  unfold after. rewrite registerAll_cons.
  fold (after (registerAll rs) (after (register r) s)).
  assert (after (register r) s = s) as ->.
  { destruct r as [b f|t]; simpl.
    - apply addBuffer_blocked, HB, list_elem_of_here.
    - apply addTexture_blocked, HT, list_elem_of_here. }
  apply IH.
  - intros k Hk. apply HB. destruct r; [by apply list_elem_of_further | done].
  - intros k Hk. apply HT. destruct r; [done | by apply list_elem_of_further].
Qed.

(** X10: shared resources are free. When every buffer and every texture
    of a second batch of registrations carries an identity key, other
    than ["__proto__"], that the first batch registered too, the second
    batch leaves the record as the first batch left it, whatever sizes and
    flags it carries. *)
Theorem shared_resources_add_nothing
    (s : ModelExperimentalStatistics) (rs1 rs2 : list Registration) :
  (forall k, k ∈ bufferKeys rs2 -> k ∈ bufferKeys rs1 /\ k ≠ "__proto__") ->
  (forall k, k ∈ textureKeys rs2 -> k ∈ textureKeys rs1 /\ k ≠ "__proto__") ->
  after (registerAll (rs1 ++ rs2)) s = after (registerAll rs1) s.
Proof.
  intros HB HT. rewrite registerAll_app. apply registerAll_blocked.
  - intros k Hk. destruct (HB k Hk) as [Hin Hp]. by apply registerAll_blocks.
  - intros k Hk. destruct (HT k Hk) as [Hin Hp]. by apply registerAll_blocks.
Qed.

Lemma step_keeps_blocked (e : Event) (w : Store * ModelExperimentalStatistics)
    (k : string) :
  (blocked (_bufferIdSet w.2) k -> blocked (_bufferIdSet (step e w).2) k)
  /\ (blocked (_textureIdSet w.2) k -> blocked (_textureIdSet (step e w).2) k).
Proof.
  destruct e as [b f|t|r|r n]; simpl.
  - split; [apply addBuffer_keeps_blocked | by rewrite after_addBuffer_textureIdSet].
  - split; [by rewrite after_addTexture_bufferIdSet | apply addTexture_keeps_blocked].
  - destruct (after_addBatchTexture_idSets w.1 r w.2) as [-> ->]. done.
  - done.
Qed.

Lemma run_keeps_blocked (es : list Event) :
  forall (w : Store * ModelExperimentalStatistics) (k : string),
    (blocked (_bufferIdSet w.2) k -> blocked (_bufferIdSet (run es w).2) k)
    /\ (blocked (_textureIdSet w.2) k -> blocked (_textureIdSet (run es w).2) k).
Proof.
  induction es as [|e es IH]; intros w k; [done|].
  rewrite run_cons. destruct (step_keeps_blocked e w k) as [HB HT].
  destruct (IH (step e w) k) as [HB' HT']. split; auto.
Qed.

(** X12: a later registration of an identity registered before changes
    nothing. After a buffer (a texture) whose key is not ["__proto__"] was
    registered anywhere earlier in the generation, registering a buffer
    (a texture) whose [_id] has the same key, with whatever size and flag,
    leaves every field of the record as it is. *)
Theorem registered_identity_changes_nothing
    (w : Store * ModelExperimentalStatistics) (es1 es2 : list Event)
    (b1 b2 : Buffer.t) (f1 f2 : bool) (t1 t2 : Texture.t) :
  propertyKey (Buffer._id b1) = propertyKey (Buffer._id b2) ->
  propertyKey (Buffer._id b1) ≠ "__proto__" ->
  propertyKey (Texture._id t1) = propertyKey (Texture._id t2) ->
  propertyKey (Texture._id t1) ≠ "__proto__" ->
  let sb := (run (es1 ++ EvAddBuffer b1 f1 :: es2) w).2 in
  let st := (run (es1 ++ EvAddTexture t1 :: es2) w).2 in
  after (addBuffer (Object b2) (Boolean f2)) sb = sb
  /\ after (addTexture (Object t2)) st = st.
Proof.
  intros HB HBp HT HTp sb st. subst sb st. split.
  - apply addBuffer_blocked. rewrite <- HB, run_app, run_cons.
    apply run_keeps_blocked. simpl. by apply addBuffer_blocks.
  - apply addTexture_blocked. rewrite <- HT, run_app, run_cons.
    apply run_keeps_blocked. simpl. by apply addTexture_blocks.
Qed.

(** ** Nothing but [clear] forgets *)

Lemma step_registry_prefix (e : Event) (w : Store * ModelExperimentalStatistics) :
  _batchTextureIdMap w.2 `prefix_of` _batchTextureIdMap (step e w).2.
Proof.
  destruct e as [b f|t|r|r n]; simpl.
  - by rewrite after_addBuffer_registry.
  - by rewrite after_addTexture_registry.
  - rewrite after_addBatchTexture.
    destruct (AssociativeArray.contains _ _) eqn:Hc; [done|].
    simpl. rewrite set_absent by exact Hc. by apply prefix_app_r.
  - done.
Qed.

Lemma run_registry_prefix (es : list Event) :
  forall w : Store * ModelExperimentalStatistics,
    _batchTextureIdMap w.2 `prefix_of` _batchTextureIdMap (run es w).2.
Proof.
  induction es as [|e es IH]; intros w; [done|].
  rewrite run_cons. etrans; [apply step_registry_prefix | apply IH].
Qed.

Lemma step_keeps_own (e : Event) (w : Store * ModelExperimentalStatistics) (k : string) :
  (hasOwn (_bufferIdSet w.2) k = true -> hasOwn (_bufferIdSet (step e w).2) k = true)
  /\ (hasOwn (_textureIdSet w.2) k = true -> hasOwn (_textureIdSet (step e w).2) k = true).
Proof.
  destruct e as [b f|t|r|r n]; simpl.
  - rewrite after_addBuffer_textureIdSet. split; [|done].
    rewrite after_addBuffer. intros Hk.
    destruct (hasOwn _ "hasOwnProperty"); [done|]. simpl. by apply setProperty_hasOwn.
  - rewrite after_addTexture_bufferIdSet. split; [done|].
    rewrite after_addTexture. intros Hk.
    destruct (hasOwn _ "hasOwnProperty"); [done|]. simpl. by apply setProperty_hasOwn.
  - destruct (after_addBatchTexture_idSets w.1 r w.2) as [-> ->]. done.
  - done.
Qed.

Lemma run_keeps_own (es : list Event) :
  forall (w : Store * ModelExperimentalStatistics) (k : string),
    (hasOwn (_bufferIdSet w.2) k = true -> hasOwn (_bufferIdSet (run es w).2) k = true)
    /\ (hasOwn (_textureIdSet w.2) k = true ->
        hasOwn (_textureIdSet (run es w).2) k = true).
Proof.
  induction es as [|e es IH]; intros w k; [done|].
  rewrite run_cons. destruct (step_keeps_own e w k) as [HB HT].
  destruct (IH (step e w) k) as [HB' HT']. split; auto.
Qed.

(** X11: registrations only ever add. Through any events of a generation
    an own key of an id set stays one, and the registry keeps its entries
    in place: it is what it was followed by the entries added since, an
    identity it contained stays contained, and a read of the overlay
    total, in a store whose sizes are in the safe range, is the read of
    the earlier registry plus the sizes of the references added since. *)
Theorem events_never_forget
    (w : Store * ModelExperimentalStatistics) (es : list Event) :
  let s := w.2 in
  let s' := (run es w).2 in
  (forall k, hasOwn (_bufferIdSet s) k = true -> hasOwn (_bufferIdSet s') k = true)
  /\ (forall k, hasOwn (_textureIdSet s) k = true -> hasOwn (_textureIdSet s') k = true)
  /\ (forall id, AssociativeArray.contains id (_batchTextureIdMap s) = true ->
                 AssociativeArray.contains id (_batchTextureIdMap s') = true)
  /\ exists added : AssociativeArray.t ref,
       _batchTextureIdMap s' = _batchTextureIdMap s ++ added
       /\ forall h : Store,
            safeStore h (AssociativeArray.values (_batchTextureIdMap s')) ->
            batchTexturesByteLength h s' =
            batchTexturesByteLength h s
            + sumZ ((fun r => BatchTexture.byteLength (h r)) <$>
                      AssociativeArray.values added).
Proof.
  intros s s'. subst s s'.
  pose proof (run_registry_prefix es w) as [added Hadded].
  split; [|split; [|split]].
  - intros k. apply run_keeps_own.
  - intros k. apply run_keeps_own.
  - intros id. rewrite !contains_true, Hadded, fmap_app, elem_of_app. tauto.
  - exists added. split; [exact Hadded|].
    intros h _. rewrite !batchTexturesByteLength_sum. unfold AssociativeArray.values.
    by rewrite Hadded, !fmap_app, sumZ_app.
Qed.

(** ** Calls that throw *)

(** X13: a registration that throws has written nothing: whatever the
    arguments and whatever the error, the record after the call is the
    record before it. With an object and a boolean for arguments,
    [addBuffer] and [addTexture] throw exactly when their id set has an
    own key ["hasOwnProperty"]. *)
Theorem registration_that_throws_writes_nothing
    (h : Store) (s : ModelExperimentalStatistics) :
  (forall (buffer : JsValue Buffer.t) (hasCpuCopy : JsValue unit) e s',
      addBuffer buffer hasCpuCopy s = (Throw e, s') -> s' = s)
  /\ (forall (texture : JsValue Texture.t) e s',
        addTexture texture s = (Throw e, s') -> s' = s)
  /\ (forall (batchTexture : JsValue ref) e s',
        addBatchTexture h batchTexture s = (Throw e, s') -> s' = s)
  /\ (forall (b : Buffer.t) (f : bool),
        addBuffer (Object b) (Boolean f) s = (Throw TypeError, s) <->
        hasOwn (_bufferIdSet s) "hasOwnProperty" = true)
  /\ (forall t : Texture.t,
        addTexture (Object t) s = (Throw TypeError, s) <->
        hasOwn (_textureIdSet s) "hasOwnProperty" = true).
Proof.
  split; [|split; [|split; [|split]]].
  - intros buffer hasCpuCopy e s'.
    destruct buffer as [| | | | |b]; try (intros [= _ <-]; reflexivity).
    + destruct hasCpuCopy as [| |f| | |]; intros [= _ <-]; reflexivity.
    + destruct hasCpuCopy as [| |f| | |]; try (intros [= _ <-]; reflexivity).
      rewrite addBuffer_eq. destruct (hasOwnProperty _ _); [discriminate|].
      by intros [= _ <-].
  - intros texture e s'.
    destruct texture as [| | | | |t]; try (intros [= _ <-]; reflexivity).
    rewrite addTexture_eq. destruct (hasOwnProperty _ _); [discriminate|].
    by intros [= _ <-].
  - intros batchTexture e s'.
    destruct batchTexture as [| | | | |r]; try (intros [= _ <-]; reflexivity).
    rewrite addBatchTexture_eq. discriminate.
  - intros b f. rewrite addBuffer_eq. unfold hasOwnProperty.
    destruct (hasOwn _ "hasOwnProperty"); split; (done || discriminate).
  - intros t. rewrite addTexture_eq. unfold hasOwnProperty.
    destruct (hasOwn _ "hasOwnProperty"); split; (done || discriminate).
Qed.

(** X16: the type checks come first. An argument that is no object by
    [typeof] makes each registration throw [InvalidArgument] with the name
    of the parameter, and so does a flag of [addBuffer] that is no
    boolean; the record stays as it was. With an object and a boolean for
    arguments, and an id set on which [hasOwnProperty] is not shadowed,
    the registration completes. *)
Theorem type_checks_come_first (h : Store) (s : ModelExperimentalStatistics) :
  (forall (buffer : JsValue Buffer.t) (hasCpuCopy : JsValue unit),
      typeof buffer ≠ "object" ->
      addBuffer buffer hasCpuCopy s = (Throw (InvalidArgument "buffer"), s))
  /\ (forall (buffer : JsValue Buffer.t) (hasCpuCopy : JsValue unit),
        typeof buffer = "object" ->
        typeof hasCpuCopy ≠ "boolean" ->
        addBuffer buffer hasCpuCopy s = (Throw (InvalidArgument "hasCpuCopy"), s))
  /\ (forall texture : JsValue Texture.t,
        typeof texture ≠ "object" ->
        addTexture texture s = (Throw (InvalidArgument "texture"), s))
  /\ (forall batchTexture : JsValue ref,
        typeof batchTexture ≠ "object" ->
        addBatchTexture h batchTexture s = (Throw (InvalidArgument "batchTexture"), s))
  /\ (forall (b : Buffer.t) (f : bool),
        unshadowed (_bufferIdSet s) ->
        addBuffer (Object b) (Boolean f) s =
          (Normal tt, after (addBuffer (Object b) (Boolean f)) s))
  /\ (forall t : Texture.t,
        unshadowed (_textureIdSet s) ->
        addTexture (Object t) s = (Normal tt, after (addTexture (Object t)) s))
  /\ (forall r : ref,
        addBatchTexture h (Object r) s =
          (Normal tt, after (addBatchTexture h (Object r)) s)).
Proof.
  split; [|split; [|split; [|split; [|split; [|split]]]]].
  - intros [| |b|n|x|o] f Hty; try done; by destruct f.
  - intros [| |b|n|x|o] [| |f|n'|x'|u] Hobj Hbool; done.
  - intros [| |b|n|x|o] Hty; done.
  - intros [| |b|n|x|o] Hty; done.
  - intros b f Hun. unfold after. rewrite addBuffer_eq.
    unfold hasOwnProperty. rewrite (proj1 (unshadowed_hasOwn _) Hun). reflexivity.
  - intros t Hun. unfold after. rewrite addTexture_eq.
    unfold hasOwnProperty. rewrite (proj1 (unshadowed_hasOwn _) Hun). reflexivity.
  - intros r. unfold after. rewrite addBatchTexture_eq. by case_match.
Qed.

(** * The theorems at concrete inputs *)

Lemma registrations_counted_once_witness :
  let rs := [RegBuffer bufferA false; RegBuffer bufferA' true; RegTexture textureT1;
             RegBuffer bufferB true; RegTexture textureT1] in
  Forall ordinaryRegistration rs
  /\ safeSizes rs
  /\ geometryByteLength (after (registerAll rs) (after clear new)) =
     sumZ (geometryBytesOf <$> [RegBuffer bufferA false; RegTexture textureT1;
                                RegBuffer bufferB true])
  /\ texturesByteLength (after (registerAll rs) (after clear new)) = 40.
Proof.
  intros rs.
  assert (Forall ordinaryRegistration rs) as Hord by by_evaluation.
  assert (safeSizes rs) as Hsafe by by_evaluation.
  split; [exact Hord|]. split; [exact Hsafe|].
  destruct (registrations_counted_once new rs Hord Hsafe) as (_ & _ & _ & HG & HT & _).
  split; [exact HG | exact HT].
Defined.

Lemma registrations_order_irrelevant_witness :
  let rs1 := [RegBuffer bufferA false; RegTexture textureT1;
              RegBuffer bufferB true; RegBuffer bufferA' true] in
  let rs2 := [RegBuffer bufferB true; RegBuffer bufferA false;
              RegTexture textureT1; RegTexture textureT1] in
  (Forall ordinaryRegistration rs1 /\ Forall ordinaryRegistration rs2)
  /\ (safeSizes rs1 /\ safeSizes rs2)
  /\ firstRegistrations rs1 ≡ₚ firstRegistrations rs2
  /\ geometryByteLength (after (registerAll rs1) (after clear new)) =
     geometryByteLength (after (registerAll rs2) (after clear new))
  /\ texturesByteLength (after (registerAll rs1) (after clear new)) =
     texturesByteLength (after (registerAll rs2) (after clear new)).
Proof.
  intros rs1 rs2.
  assert (Forall ordinaryRegistration rs1) as Hord1 by by_evaluation.
  assert (Forall ordinaryRegistration rs2) as Hord2 by by_evaluation.
  assert (safeSizes rs1) as Hsafe1 by by_evaluation.
  assert (safeSizes rs2) as Hsafe2 by by_evaluation.
  assert (firstRegistrations rs1 ≡ₚ firstRegistrations rs2) as Hperm.
  { symmetry.
    exact (Permutation_cons_append
             [RegBuffer bufferA false; RegTexture textureT1] (RegBuffer bufferB true)). }
  split; [by split|]. split; [by split|]. split; [exact Hperm|].
  exact (registrations_order_irrelevant new rs1 rs2 Hord1 Hord2 Hsafe1 Hsafe2 Hperm).
Defined.

Lemma batchTexturesByteLength_live_witness :
  let es := [EvAddBatchTexture 0%nat; EvAddBatchTexture 1%nat; EvAddBatchTexture 0%nat] in
  let h := setByteLength 0%nat 30 store0 in
  let w := run es (store0, after clear new) in
  safeStore h (retained store0 es)
  /\ safeStore (setByteLength 1%nat 20 h) (retained store0 es)
  /\ batchTexturesByteLength h w.2 = 30
  /\ batchTexturesByteLength (setByteLength 1%nat 20 h) w.2 = 50.
Proof.
  intros es h w.
  assert (safeStore h (retained store0 es)) as H1 by by_evaluation.
  assert (safeStore (setByteLength 1%nat 20 h) (retained store0 es)) as H2 by by_evaluation.
  split; [exact H1|]. split; [exact H2|].
  destruct (batchTexturesByteLength_live store0 new es h 1%nat 20 H1 H2)
    as (_ & _ & _ & Hread & Hnext).
  split; [exact Hread | exact Hnext].
Defined.


Lemma id_sets_hold_registered_keys_witness :
  let es := [EvAddBuffer bufferA false; EvAddBatchTexture 0%nat; EvAddTexture textureT1] in
  Forall ordinaryRegistration (eventRegistrations es)
  /\ _bufferIdSet (run es (store0, new)).2 !! "A" = Some true
  /\ _bufferIdSet (run es (store0, new)).2 !! "T1" = None
  /\ _textureIdSet (run es (store0, new)).2 !! "T1" = Some true.
Proof.
  intros es.
  assert (Forall ordinaryRegistration (eventRegistrations es)) as Hord by by_evaluation.
  split; [exact Hord|].
  destruct (id_sets_hold_registered_keys (store0, new) es "A" Hord eq_refl eq_refl)
    as (HA & _).
  destruct (id_sets_hold_registered_keys (store0, new) es "T1" Hord eq_refl eq_refl)
    as (HB & HT & _).
  split; [exact HA|]. split; [exact HB | exact HT].
Defined.

Lemma totals_between_start_and_plain_sum_witness :
  let rs := [RegBuffer bufferA false; RegBuffer bufferA' true; RegTexture textureT1] in
  Forall (fun r => 0 <= sizeOf r) rs
  /\ (geometryByteLength new <= geometryByteLength (after (registerAll rs) new)
        <= geometryByteLength new + sumZ (geometryBytesOf <$> rs))
  /\ (texturesByteLength new <= texturesByteLength (after (registerAll rs) new)
        <= texturesByteLength new + sumZ (textureBytesOf <$> rs)).
Proof.
  intros rs.
  assert (Forall (fun r => 0 <= sizeOf r) rs) as Hpos by by_evaluation.
  split; [exact Hpos|].
  refine (totals_between_start_and_plain_sum new rs Hpos _ _ _ _); by_evaluation.
Defined.

Lemma distinct_identities_all_counted_witness :
  let rs := [RegBuffer bufferA false; RegBuffer bufferB true; RegTexture textureT1] in
  Forall ordinaryRegistration rs /\ safeSizes rs
  /\ NoDup (bufferKeys rs) /\ NoDup (textureKeys rs)
  /\ geometryByteLength (after (registerAll rs) new) = 200
  /\ texturesByteLength (after (registerAll rs) new) = 40.
Proof.
  intros rs.
  assert (Forall ordinaryRegistration rs) as Hord by by_evaluation.
  assert (safeSizes rs) as Hsafe by by_evaluation.
  assert (NoDup (bufferKeys rs)) as HB.
  { apply (bool_decide_unpack _). reflexivity. }
  assert (NoDup (textureKeys rs)) as HT.
  { apply (bool_decide_unpack _). reflexivity. }
  split; [exact Hord|]. split; [exact Hsafe|]. split; [exact HB|]. split; [exact HT|].
  destruct (distinct_identities_all_counted rs Hord Hsafe HB HT) as (_ & -> & ->).
  split; reflexivity.
Defined.

Lemma registrations_of_different_identities_commute_witness :
  keyOf (RegBuffer bufferA false) ≠ keyOf (RegBuffer bufferProto true)
  /\ after (register (RegBuffer bufferProto true))
       (after (register (RegBuffer bufferA false)) new) =
     after (register (RegBuffer bufferA false))
       (after (register (RegBuffer bufferProto true)) new).
Proof.
  assert (keyOf (RegBuffer bufferA false) ≠ keyOf (RegBuffer bufferProto true)) as Hne
    by discriminate.
  split; [exact Hne|].
  refine (registrations_of_different_identities_commute new
            (RegBuffer bufferA false) (RegBuffer bufferProto true) Hne _ _ _ _ _ _ _ _);
    by_evaluation.
Defined.

Lemma overlay_total_order_irrelevant_witness :
  let es1 := [EvAddBatchTexture 0%nat; EvAddBatchTexture 1%nat] in
  let es2 := [EvAddBatchTexture 1%nat; EvSetByteLength 0%nat 30;
              EvAddBatchTexture 0%nat; EvAddBatchTexture 1%nat] in
  let h := setByteLength 1%nat 20 store0 in
  retained store0 es1 ≡ₚ retained store0 es2
  /\ safeStore h (retained store0 es1)
  /\ batchTexturesByteLength h (run es1 (store0, new)).2 =
     batchTexturesByteLength h (run es2 (store0, new)).2.
Proof.
  intros es1 es2 h.
  assert (retained store0 es1 ≡ₚ retained store0 es2) as Hperm.
  { exact (perm_swap 1%nat 0%nat []). }
  assert (safeStore h (retained store0 es1)) as Hsafe by by_evaluation.
  split; [exact Hperm|]. split; [exact Hsafe|].
  exact (overlay_total_order_irrelevant store0 es1 es2 h Hperm Hsafe).
Defined.

Lemma addBatchTexture_total_delta_witness :
  let s := (run [EvAddBatchTexture 0%nat] (store0, new)).2 in
  let h' := setByteLength 1%nat 20 (setByteLength 0%nat 30 store0) in
  safeStore h' (AssociativeArray.values (_batchTextureIdMap s) ++ [1%nat])
  /\ batchTexturesByteLength h' (after (addBatchTexture store0 (Object 1%nat)) s) = 50.
Proof.
  intros s h'.
  assert (safeStore h' (AssociativeArray.values (_batchTextureIdMap s) ++ [1%nat]))
    as Hsafe by by_evaluation.
  split; [exact Hsafe|].
  exact (addBatchTexture_total_delta store0 h' s 1%nat Hsafe).
Defined.

Lemma shared_resources_add_nothing_witness :
  let rs1 := [RegBuffer bufferA false; RegTexture textureT1] in
  let rs2 := [RegBuffer bufferA' true; RegTexture textureT1] in
  (forall k, k ∈ bufferKeys rs2 -> k ∈ bufferKeys rs1 /\ k ≠ "__proto__")
  /\ (forall k, k ∈ textureKeys rs2 -> k ∈ textureKeys rs1 /\ k ≠ "__proto__")
  /\ after (registerAll (rs1 ++ rs2)) new = after (registerAll rs1) new.
Proof.
  intros rs1 rs2.
  assert (forall k, k ∈ bufferKeys rs2 -> k ∈ bufferKeys rs1 /\ k ≠ "__proto__") as HB.
  { intros k Hk. split; [exact Hk|].
    apply list_elem_of_singleton in Hk. subst k. discriminate. }
  assert (forall k, k ∈ textureKeys rs2 -> k ∈ textureKeys rs1 /\ k ≠ "__proto__") as HT.
  { intros k Hk. split; [exact Hk|].
    apply list_elem_of_singleton in Hk. subst k. discriminate. }
  split; [exact HB|]. split; [exact HT|].
  exact (shared_resources_add_nothing new rs1 rs2 HB HT).
Defined.

Lemma registered_identity_changes_nothing_witness :
  Buffer._id buffer1 ≠ Buffer._id buffer1s
  /\ Texture._id texture1 ≠ Texture._id texture1s
  /\ geometryByteLength
       (after (addBuffer (Object buffer1s) (Boolean true))
          (run [EvAddBuffer buffer1 false; EvAddTexture textureT1] (store0, new)).2) = 10
  /\ texturesByteLength
       (after (addTexture (Object texture1s))
          (run [EvAddTexture texture1; EvAddTexture textureT1] (store0, new)).2) = 50.
Proof.
  assert (propertyKey (Buffer._id buffer1) ≠ "__proto__") as HBp by discriminate.
  assert (propertyKey (Texture._id texture1) ≠ "__proto__") as HTp by discriminate.
  destruct (registered_identity_changes_nothing (store0, new) [] [EvAddTexture textureT1]
              buffer1 buffer1s false true texture1 texture1s eq_refl HBp eq_refl HTp)
    as [HB HT].
  split; [discriminate|]. split; [discriminate|].
  simpl app in HB, HT. rewrite HB, HT. split; reflexivity.
Defined.

(** * The scenarios of the specification *)

Example scenario_buffers :
  let s1 := after (addBuffer (Object bufferA) (Boolean false)) new in
  let s2 := after (addBuffer (Object bufferA) (Boolean false)) s1 in
  let s3 := after (addBuffer (Object bufferB) (Boolean true)) s2 in
  geometryByteLength s1 = 100 /\ geometryByteLength s2 = 100
  /\ geometryByteLength s3 = 200.
Proof. repeat split. Qed.

Example scenario_textures :
  let s2 := after (registerAll [RegTexture textureT1; RegTexture textureT2]) new in
  let s3 := after (addTexture (Object textureT1)) s2 in
  texturesByteLength s2 = 100 /\ texturesByteLength s3 = 100.
Proof. repeat split. Qed.

Example scenario_overlay_textures :
  let w0 := run [EvAddBatchTexture 0%nat; EvAddBatchTexture 1%nat] (store0, new) in
  let w1 := run [EvSetByteLength 0%nat 30] w0 in
  let w2 := run [EvSetByteLength 1%nat 20] w1 in
  batchTexturesByteLength w0.1 w0.2 = 0
  /\ batchTexturesByteLength w1.1 w1.2 = 30
  /\ batchTexturesByteLength w2.1 w2.2 = 50
  /\ w2.2 = w0.2.
Proof. repeat split. Qed.

Example scenario_clear :
  let w := run [EvAddBuffer bufferA true; EvAddTexture textureT1;
                EvAddBatchTexture 0%nat; EvSetByteLength 0%nat 30] (store0, new) in
  let s0 := after clear w.2 in
  geometryByteLength w.2 = 200
  /\ batchTexturesByteLength w.1 w.2 = 30
  /\ geometryByteLength s0 = 0
  /\ batchTexturesByteLength w.1 s0 = 0
  /\ geometryByteLength (after (addBuffer (Object bufferA) (Boolean false)) s0) = 100.
Proof. repeat split. Qed.

(** The numeric identity 1 and the string identity "1" have one key. *)
Example propertyKey_number_string :
  IdNumber 1 I ≠ IdString "1"
  /\ propertyKey (IdNumber 1 I) = propertyKey (IdString "1").
Proof. split; [discriminate | reflexivity]. Qed.
